(** * hyper-watchdog chaincode: asset lifecycle, retention policies, expiry

    A shallow embedding of the Go chaincode under
    [app/smartcontract/hyper-watchdog/chaincode-go/chaincode]
    ([datamodels.go], the policy file, [utils.go], [smartcontract.go]) and the
    properties of its specification that can be settled on it.

    Conventions.
    - [float64] is Rocq's primitive binary64 float; [x > y] in Go is
      [PrimFloat.ltb y x].
    - [time.Time] values handled by the chaincode are UTC instants without a
      monotonic reading; they are kept as seconds and nanoseconds since
      January 1, year 1, which is how the Go runtime lays them out.
    - [time.Duration] is a count of nanoseconds.
    - Go's [(value, error)] returns become [result]; every [fmt.Errorf] site
      has its own constructor of [error], and [Wrapped] keeps the message
      prefix a caller adds around an inner error.
    - The ledger stub is state threaded through the monad [M]. *)

From Stdlib Require Import ZArith Floats Uint63 Lia.
From stdpp Require Import base strings list gmap sorting pretty.

Set Warnings "-inexact-float".
Set Default Proof Using "Type*".

Local Open Scope Z_scope.

(* ===================================================================== *)
(** ** Errors and results *)
(* ===================================================================== *)

Inductive error : Type :=
| AlreadyExists (id : string)      (* "the asset %s already exists" *)
| NotFound (id : string)           (* "the asset %s does not exist" *)
| IdMismatch                       (* "given ID is not bound to given asset" *)
| DecodeError                      (* json / base64 decoding failed *)
| EncodeError                      (* json.Marshal failed *)
| IntegrityMismatch                (* "given data hash differs from stored one" *)
| PolicyNotFound (id : string)     (* "Policy with id %q is not allowed." *)
| PolicyNotApplied                 (* "a policy needs to be applied ..." *)
| ExpiryNotComputed                (* "expiry date not computed yet ..." *)
| NotYetExpired                    (* "expiry date not reached yet" *)
| NoChange                         (* "expiryDate is already present and legit" *)
| SizeMismatch                     (* "input arrays have different sizes" *)
| ParseError                       (* "unable to parse expiryDatetime ..." *)
| FutureDateRejected               (* "queries to future dates are not allowed." *)
| EmptyHistory                     (* "asset's history is empty" *)
| StoreError                       (* an error returned by the ledger stub *)
| DurationError (s : string)       (* time.ParseDuration failed *)
| IndexOutOfRange                  (* run-time panic on a slice index *)
| Wrapped (prefix : string) (cause : error). (* fmt.Errorf("<prefix>: %s", err) *)

(** The innermost error of a chain of [fmt.Errorf] wrappers. *)
Fixpoint root_cause (e : error) : error :=
  match e with
  | Wrapped _ c => root_cause c
  | _ => e
  end.

Inductive result (A : Type) : Type :=
| Ok (a : A)
| Err (e : error).
Arguments Ok {A} a.
Arguments Err {A} e.

Definition is_Err {A} (r : result A) : bool :=
  match r with Ok _ => false | Err _ => true end.

(** [failure r] is the root cause with which [r] failed, if it failed. *)
Definition failure {A} (r : result A) : option error :=
  match r with Ok _ => None | Err e => Some (root_cause e) end.

(** [if err != nil { return fmt.Errorf("<prefix>: %s", err) }] *)
Definition wrap_result {A} (prefix : string) (r : result A) : result A :=
  match r with Ok a => Ok a | Err e => Err (Wrapped prefix e) end.

(** A library call that reports failure without a structured error. *)
Definition of_option {A} (e : error) (o : option A) : result A :=
  match o with Some a => Ok a | None => Err e end.

(* ===================================================================== *)
(** ** [time.Time] and [time.Duration] *)
(* ===================================================================== *)

Definition Duration : Type := Z.

Definition Nanosecond : Duration := 1.
Definition Millisecond : Duration := 1000000 * Nanosecond.
Definition Second : Duration := 1000 * Millisecond.
Definition Hour : Duration := 3600 * Second.

Record Time : Type := mkTime {
  t_sec : Z;    (* seconds since January 1, year 1 00:00:00 UTC *)
  t_nsec : Z    (* nanoseconds within the second, in [0, 999999999] *)
}.

#[global] Instance Time_eq_dec : EqDecision Time.
Proof. solve_decision. Defined.

(** [time.Time{}] *)
Definition zeroTime : Time := mkTime 0 0.

Definition Time_valid (t : Time) : Prop := 0 <= t_nsec t < 1000000000.

(** The instant as one count of nanoseconds. *)
Definition Time_nanos (t : Time) : Z := t_sec t * 1000000000 + t_nsec t.

(** [t.Add(d)], as the Go runtime computes it: integer division truncates
    towards zero, the nanosecond field is then brought back into range.
    (The seconds field is not bounded here.) *)
Definition Time_Add (t : Time) (d : Duration) : Time :=
  let dsec := Z.quot d 1000000000 in
  let nsec := t_nsec t + Z.rem d 1000000000 in
  if 1000000000 <=? nsec then mkTime (t_sec t + (dsec + 1)) (nsec - 1000000000)
  else if nsec <? 0 then mkTime (t_sec t + (dsec - 1)) (nsec + 1000000000)
  else mkTime (t_sec t + dsec) nsec.

(** [t.Before(u)] and [t.After(u)] *)
Definition Time_Before (t u : Time) : bool :=
  (t_sec t <? t_sec u) || ((t_sec t =? t_sec u) && (t_nsec t <? t_nsec u)).
Definition Time_After (t u : Time) : bool :=
  (t_sec u <? t_sec t) || ((t_sec t =? t_sec u) && (t_nsec u <? t_nsec t)).

(** [t.Second()]: the second offset within the minute (the same in every
    time zone whose offset is a whole number of minutes). *)
Definition Time_Second (t : Time) : Z := t_sec t mod 60.

(** [time.ParseDuration], on the literals the chaincode passes to it. *)
Definition time_ParseDuration (s : string) : result Duration :=
  if decide (s = "24h") then Ok (24 * Hour)
  else if decide (s = "48h") then Ok (48 * Hour)
  else if decide (s = "31800ms") then Ok (31800 * Millisecond)
  else if decide (s = "127200ms") then Ok (127200 * Millisecond)
  else Err (DurationError s).

(* ===================================================================== *)
(** ** Data model ([datamodels.go], [smartcontract.go]) *)
(* ===================================================================== *)

(** A [[]float64]: [None] is the nil slice, which [json.Marshal] prints as
    [null] where it prints an empty slice as [[]]. *)
Definition float64s : Type := option (list float).

Definition elems (s : float64s) : list float := default [] s.

(** [float64(len(in))]; a slice length fits a Go [int]. *)
Definition float64_of_len (s : float64s) : float :=
  PrimFloat.of_uint63 (Uint63.of_Z (Z.of_nat (length (elems s)))).

Record SensorData : Type := mkSensorData {
  sd_X : float64s;
  sd_Y : float64s;
  sd_Z : float64s
}.

Record ChunkData : Type := mkChunkData {
  Id : string;
  Sensor0 : SensorData;
  Sensor1 : SensorData;
  Sensor2 : SensorData;
  Sensor3 : SensorData;
  Sensor4 : SensorData;
  Sensor5 : SensorData
}.

Record Asset : Type := mkAsset {
  AppliedPolicyId : string;
  ChunkId : string;
  DataHash : string;
  ExpiryDate : Time;
  ExpiryPeriod : Duration
}.

(** [HistoryQueryResult]; [Record] is a pointer that is never nil. *)
Record HistoryQueryResult : Type := mkHistoryQueryResult {
  hq_Record : Asset;
  hq_TxId : string;
  hq_Timestamp : Time;
  hq_IsDelete : bool
}.

(* ===================================================================== *)
(** ** Library functions the chaincode calls *)
(* ===================================================================== *)

(** The Go standard library and encoding functions used by the chaincode are
    not part of the repository; they are parameters of the development.
    [Bytes] is the type of the payloads written to the ledger. *)
Class GoLib : Type := {
  Bytes : Type;
  (** [json.Marshal] / [json.Unmarshal] on an [Asset] *)
  json_Marshal_Asset : Asset -> option Bytes;
  json_Unmarshal_Asset : Bytes -> option Asset;
  (** [json.Marshal] on a [*ChunkData] *)
  json_Marshal_ChunkData : ChunkData -> option string;
  (** [json.NewDecoder(base64.NewDecoder(base64.StdEncoding, r)).Decode(v)]
      into a fresh [ChunkData] *)
  json_Decode_base64 : string -> option ChunkData;
  (** [fmt.Sprintf("%x", md5.Sum([]byte(data)))] *)
  md5_Sum_hex : string -> string;
  (** [time.Parse(time.RFC3339, s)] *)
  time_Parse_RFC3339 : string -> option Time;
  (** [math.Pow] *)
  math_Pow : float -> float -> float
}.

(** What [json.Unmarshal] gives back for what [json.Marshal] wrote. *)
Definition json_Asset_roundtrip `{GoLib} : Prop :=
  forall a b, json_Marshal_Asset a = Some b -> json_Unmarshal_Asset b = Some a.

(* ===================================================================== *)
(** ** Hashing and decoding ([utils.go], [datamodels.go]) *)
(* ===================================================================== *)

Section Hashing.
Context `{GoLib}.

Definition base64DecodeJson (enc : string) : result ChunkData :=
  of_option DecodeError (json_Decode_base64 enc).

Definition md5Hash (data : string) : result string :=
  let hmd5 := md5_Sum_hex data in
  Ok hmd5.

Definition hash (d : ChunkData) : result string :=
  match of_option EncodeError (json_Marshal_ChunkData d) with
  | Err err => Err (Wrapped "unable to serialize to JSON" err)
  | Ok dataJSON =>
      match md5Hash dataJSON with
      | Err err => Err (Wrapped "unable to compute data hash" err)
      | Ok dataHash => Ok dataHash
      end
  end.
End Hashing.

(* ===================================================================== *)
(** ** Policy engine (the policy file) *)
(* ===================================================================== *)

Section Policies.
Context `{GoLib}.

Definition computeSignalEnergy (in_ : float64s) : float :=
  fold_left
    (fun energy val => (energy + math_Pow (PrimFloat.abs val) 2)%float)
    (elems in_) 0%float.

Definition computeSignalMeanEnergy (in_ : float64s) : float :=
  (computeSignalEnergy in_ / float64_of_len in_)%float.

(** [Logic] also receives the reading of the peer's wall clock, which
    [examplePolicyLogic] obtains from [time.Now()]. *)
Record Policy : Type := mkPolicy {
  p_Id : string;
  p_Description : string;
  p_Logic : Time -> ChunkData -> result Duration
}.

Definition applyToChunkData (p : Policy) (now : Time) (d : ChunkData)
  : result Duration :=
  p_Logic p now d.

(** *** Policy 1 - example policy *)
Definition examplePolicyLogic (now : Time) (d : ChunkData) : result Duration :=
  let expiryTimeString := "24h" in
  let expiryTimeString :=
    if Time_Second now mod 2 =? 0 then "48h" else expiryTimeString in
  match time_ParseDuration expiryTimeString with
  | Err err => Err err
  | Ok expiryTimeDuration => Ok expiryTimeDuration
  end.

Definition examplePolicy : Policy := {|
  p_Id := "example_policy_v1";
  p_Description := "This is a sample policy.";
  p_Logic := examplePolicyLogic
|}.

(** *** Policy 2 - mean energy policy *)
Record Threshold : Type := mkThreshold {
  thr_X : float;
  thr_Y : float;
  thr_Z : float
}.

Definition thr : Threshold := {|
  thr_X := 1.8191607053598602e-06%float;
  thr_Y := 1.2442575637320148e-06%float;
  thr_Z := 1.0956301130461567e-06%float
|}.

Definition defaultExpiryTimeString : string := "31800ms".
Definition thrExpiryTimeString : string := "127200ms".

Definition energyArray (d : ChunkData) : list float :=
  [ computeSignalMeanEnergy (sd_X (Sensor0 d));
    computeSignalMeanEnergy (sd_Y (Sensor0 d));
    computeSignalMeanEnergy (sd_Z (Sensor0 d));
    computeSignalMeanEnergy (sd_X (Sensor1 d));
    computeSignalMeanEnergy (sd_Y (Sensor1 d));
    computeSignalMeanEnergy (sd_Z (Sensor1 d));
    computeSignalMeanEnergy (sd_X (Sensor2 d));
    computeSignalMeanEnergy (sd_Y (Sensor2 d));
    computeSignalMeanEnergy (sd_Z (Sensor2 d));
    computeSignalMeanEnergy (sd_X (Sensor3 d));
    computeSignalMeanEnergy (sd_Y (Sensor3 d));
    computeSignalMeanEnergy (sd_Z (Sensor3 d));
    computeSignalMeanEnergy (sd_X (Sensor4 d));
    computeSignalMeanEnergy (sd_Y (Sensor4 d));
    computeSignalMeanEnergy (sd_Z (Sensor4 d));
    computeSignalMeanEnergy (sd_X (Sensor5 d));
    computeSignalMeanEnergy (sd_Y (Sensor5 d));
    computeSignalMeanEnergy (sd_Z (Sensor5 d)) ].

(** One iteration of [for _, val := range energyArray], on the loop state
    [(j, expiryTimeString)]. *)
Definition energyLoopBody (st : nat * string) (val : float) : nat * string :=
  let '(j, expiryTimeString) := st in
  let expiryTimeString :=
    if ((j =? 0)%nat && (thr_X thr <? val)%float)
       || ((j =? 1)%nat && (thr_Y thr <? val)%float)
       || ((j =? 2)%nat && (thr_Z thr <? val)%float)
    then thrExpiryTimeString else expiryTimeString in
  let j := (j + 1)%nat in
  let j := if (j =? 3)%nat then 0%nat else j in
  (j, expiryTimeString).

Definition energyPolicyLogic (now : Time) (d : ChunkData) : result Duration :=
  let expiryTimeString := defaultExpiryTimeString in
  let j := 0%nat in
  let '(_, expiryTimeString) :=
    fold_left energyLoopBody (energyArray d) (j, expiryTimeString) in
  match time_ParseDuration expiryTimeString with
  | Err err => Err err
  | Ok expiryTimeDuration => Ok expiryTimeDuration
  end.

Definition energyPolicy : Policy := {|
  p_Id := "signal_energy_policy_v1";
  p_Description :=
    "This policy computes the average signal energy, and "
    +:+ "establishes an expiry time duration based on a threshold.";
  p_Logic := energyPolicyLogic
|}.

(** *** Available policies map *)
Definition AvailablePolicies : gmap string Policy :=
  <[p_Id examplePolicy := examplePolicy]>
    (<[p_Id energyPolicy := energyPolicy]> ∅).

Definition getPolicy (id : string) : result Policy :=
  match AvailablePolicies !! id with
  | None => Err (PolicyNotFound id)
  | Some p => Ok p
  end.

(** [(d *ChunkData).applyPolicyById] *)
Definition applyPolicyById (now : Time) (d : ChunkData) (policyId : string)
  : result Duration :=
  match getPolicy policyId with
  | Err err => Err (Wrapped "unable to find policy" err)
  | Ok p => applyToChunkData p now d
  end.
End Policies.

(* ===================================================================== *)
(** ** The ledger stub *)
(* ===================================================================== *)

(** The ledger is outside the repository. It is modelled as the key-value
    store with per-key history that the specification describes at the
    chaincode's boundary: [GetState] reads the current value of a key,
    [PutState] and [DelState] change it and append an entry stamped with the
    transaction's id and timestamp to the key's history, [GetHistoryForKey]
    yields the entries oldest first, and [GetStateByRange("", "")] yields all
    live keys in lexical order. Transactions run one after the other, each on
    the ledger its predecessors left; a read sees the writes issued before
    it. The stub calls themselves do not fail. *)

Section Ledger.
Context `{GoLib}.

(** [queryresult.KeyModification] *)
Record KeyModification : Type := mkKeyModification {
  km_TxId : string;
  km_Value : option Bytes;      (* [None]: no payload, [len(Value) == 0] *)
  km_Timestamp : Time;
  km_IsDelete : bool
}.

Record Ledger : Type := mkLedger {
  world : gmap string Bytes;
  history : gmap string (list KeyModification)
}.

Definition emptyLedger : Ledger := mkLedger ∅ ∅.

(** What a transaction knows besides the ledger: its id, its timestamp, and
    the reading [time.Now()] gives on the executing peer. *)
Record TxContext : Type := mkTxContext {
  tx_Id : string;
  tx_Timestamp : Time;
  tx_Now : Time
}.

(** Chaincode operations: a result together with the ledger as the writes
    issued so far left it. *)
Definition M (A : Type) : Type := Ledger -> result A * Ledger.

Definition ret {A} (a : A) : M A := fun l => (Ok a, l).
Definition fail {A} (e : error) : M A := fun l => (Err e, l).
Definition bind {A B} (m : M A) (k : A -> M B) : M B :=
  fun l => match m l with
           | (Ok a, l') => k a l'
           | (Err e, l') => (Err e, l')
           end.
Definition lift {A} (r : result A) : M A := fun l => (r, l).
(** [if err != nil { return fmt.Errorf("<prefix>: %s", err) }] *)
Definition wrapping {A} (prefix : string) (m : M A) : M A :=
  fun l => let '(r, l') := m l in (wrap_result prefix r, l').

Definition history_of (l : Ledger) (key : string) : list KeyModification :=
  default [] (history l !! key).

Definition GetState (key : string) : M (option Bytes) :=
  fun l => (Ok (world l !! key), l).

Definition PutState (ctx : TxContext) (key : string) (value : Bytes) : M unit :=
  fun l =>
    let entry := mkKeyModification (tx_Id ctx) (Some value) (tx_Timestamp ctx) false in
    (Ok tt, mkLedger (<[key := value]> (world l))
                     (<[key := history_of l key ++ [entry]]> (history l))).

Definition DelState (ctx : TxContext) (key : string) : M unit :=
  fun l =>
    let entry := mkKeyModification (tx_Id ctx) None (tx_Timestamp ctx) true in
    (Ok tt, mkLedger (delete key (world l))
                     (<[key := history_of l key ++ [entry]]> (history l))).

Definition GetHistoryForKey (key : string) : M (list KeyModification) :=
  fun l => (Ok (history_of l key), l).

Definition key_le (a b : string * Bytes) : Prop := String.leb a.1 b.1.
#[global] Instance key_le_dec a b : Decision (key_le a b).
Proof. unfold key_le. apply _. Defined.

Definition GetStateByRange_all : M (list (string * Bytes)) :=
  fun l => (Ok (merge_sort key_le (map_to_list (world l))), l).
End Ledger.

Declare Scope go_scope.
Delimit Scope go_scope with go.
Notation "x <- m ;; k" := (bind m (fun x => k))
  (at level 100, m at next level, right associativity) : go_scope.
Notation "m ;;; k" := (bind m (fun _ => k))
  (at level 100, right associativity) : go_scope.

(* ===================================================================== *)
(** ** The smart contract ([smartcontract.go]) *)
(* ===================================================================== *)

Section SmartContract.
Context `{GoLib}.
Local Open Scope go_scope.

(** *** Atomic private transactions *)

(** [assetExists] returns true when an asset with the given id exists in
    the world state. *)
Definition assetExists (id : string) : M bool :=
  assetJSON <- wrapping "failed to read from world state" (GetState id) ;;
  ret (bool_decide (assetJSON <> None)).

Definition createAsset (ctx : TxContext) (a : Asset) : M unit :=
  exists_ <- assetExists (ChunkId a) ;;
  if (exists_ : bool) then fail (AlreadyExists (ChunkId a))
  else
    assetJSON <- lift (of_option EncodeError (json_Marshal_Asset a)) ;;
    PutState ctx (ChunkId a) assetJSON.

Definition readAsset (id : string) : M Asset :=
  assetJSON <- wrapping "failed to read from world state" (GetState id) ;;
  match assetJSON with
  | None => fail (NotFound id)
  | Some b => lift (of_option DecodeError (json_Unmarshal_Asset b))
  end.

Definition updateAsset (ctx : TxContext) (id : string) (a : Asset) : M unit :=
  if bool_decide (ChunkId a <> id)
  then fail (Wrapped "unable to update asset" IdMismatch)
  else
    wrapping "unable to update asset" (readAsset id) ;;;
    assetBytes <- lift (of_option EncodeError (json_Marshal_Asset a)) ;;
    PutState ctx id assetBytes.

Definition deleteAsset (ctx : TxContext) (id : string) : M unit :=
  exists_ <- assetExists id ;;
  if (exists_ : bool) then DelState ctx id
  else fail (NotFound id).

(** *** Private transactions *)

(** The body of [for resultsIterator.HasNext()] in [getAssetHistory];
    [records] is the slice built so far. The timestamp of an entry is kept
    as the [time.Time] that [ptypes.Timestamp] converts it to. *)
Fixpoint getAssetHistory_loop (id : string) (records : list HistoryQueryResult)
    (resultsIterator : list KeyModification) : result (list HistoryQueryResult) :=
  match resultsIterator with
  | [] => Ok records
  | response :: rest =>
      let decoded :=
        match km_Value response with
        | Some value => of_option DecodeError (json_Unmarshal_Asset value)
        | None => Ok (mkAsset "" id "" zeroTime 0)
        end in
      match decoded with
      | Err err => Err err
      | Ok asset =>
          let timestamp := km_Timestamp response in
          let record := {| hq_TxId := km_TxId response;
                           hq_Timestamp := timestamp;
                           hq_Record := asset;
                           hq_IsDelete := km_IsDelete response |} in
          getAssetHistory_loop id (records ++ [record]) rest
      end
  end.

Definition getAssetHistory (id : string) : M (list HistoryQueryResult) :=
  resultsIterator <- GetHistoryForKey id ;;
  lift (getAssetHistory_loop id [] resultsIterator).

Definition set_ExpiryDate (a : Asset) (expiryDate : Time) : Asset :=
  mkAsset (AppliedPolicyId a) (ChunkId a) (DataHash a) expiryDate (ExpiryPeriod a).

Definition updateAssetExpiryDate (ctx : TxContext) (id : string)
    (expiryDate : Time) : M unit :=
  asset <- readAsset id ;;
  let asset := set_ExpiryDate asset expiryDate in
  updateAsset ctx id asset.

Definition getAssetCreationTime (id : string) : M Time :=
  h <- getAssetHistory id ;;
  match h with
  | [] => fail EmptyHistory
  | h0 :: _ =>
      let creationTimestamp := hq_Timestamp h0 in (* first transaction timestamp *)
      ret creationTimestamp
  end.

Definition computeExpiryDate (id : string) (expiryPeriod : Duration) : M Time :=
  creationTime <- wrapping "error getting creation timestamp"
                    (getAssetCreationTime id) ;;
  let expiryDate := Time_Add creationTime expiryPeriod in
  ret expiryDate.

(** *** Public transactions *)

Definition AddChunk (ctx : TxContext) (chunkId chunkDataBase64 : string)
  : M unit :=
  exists_ <- assetExists chunkId ;;
  if (exists_ : bool) then fail (AlreadyExists chunkId)
  else
    chunkData <- lift (wrap_result "unable to decode base64 input"
                         (base64DecodeJson chunkDataBase64)) ;;
    chunkDataHash <- lift (wrap_result "unable to compute data hash"
                             (hash chunkData)) ;;
    let newAsset := {| AppliedPolicyId := "";
                       ChunkId := chunkId;
                       DataHash := chunkDataHash;
                       ExpiryDate := zeroTime;
                       ExpiryPeriod := 0 |} in
    createAsset ctx newAsset.

Definition AddChunkWithPolicy (ctx : TxContext)
    (chunkId chunkDataBase64 policyId : string) : M unit :=
  exists_ <- assetExists chunkId ;;
  if (exists_ : bool) then fail (AlreadyExists chunkId)
  else
    chunkData <- lift (wrap_result "unable to decode base64 input"
                         (base64DecodeJson chunkDataBase64)) ;;
    chunkDataHash <- lift (wrap_result "unable to compute data hash"
                             (hash chunkData)) ;;
    chunkExpiryPeriod <- lift (wrap_result "unable to apply policy"
                                (applyPolicyById (tx_Now ctx) chunkData policyId)) ;;
    let newAsset := {| AppliedPolicyId := policyId;
                       ChunkId := chunkId;
                       DataHash := chunkDataHash;
                       ExpiryDate := zeroTime;
                       ExpiryPeriod := chunkExpiryPeriod |} in
    createAsset ctx newAsset.

(** An index expression [s[i]]; out of range it panics. *)
Definition index (s : list string) (i : nat) : M string :=
  match s !! i with
  | Some x => ret x
  | None => fail IndexOutOfRange
  end.

(** The body of [for i := range chunkId] for one [i]: the checks made on
    entry [i] and the asset assembled from it. Nothing is written. *)
Definition batchEntry (ctx : TxContext)
    (chunkId chunkDataBase64 policyId : list string) (i : nat) : M Asset :=
  id <- index chunkId i ;;
  exists_ <- assetExists id ;;
  if (exists_ : bool)
  then fail (Wrapped "asset with ID %s" (AlreadyExists id))
  else
    enc <- index chunkDataBase64 i ;;
    chunkData <- lift (wrap_result "asset with ID %s: unable to decode base64 input"
                         (base64DecodeJson enc)) ;;
    chunkDataHash <- lift (wrap_result "asset with ID %s: unable to compute data hash"
                             (hash chunkData)) ;;
    pid <- index policyId i ;;
    chunkExpiryPeriod <- lift (wrap_result "asset with ID %s: unable to apply policy"
                                (applyPolicyById (tx_Now ctx) chunkData pid)) ;;
    ret {| AppliedPolicyId := pid;
           ChunkId := id;
           DataHash := chunkDataHash;
           ExpiryDate := zeroTime;
           ExpiryPeriod := chunkExpiryPeriod |}.

(** The first loop of [AddChunkWithPolicyBatch], over the indices [indices]. *)
Fixpoint batchCheck (ctx : TxContext)
    (chunkId chunkDataBase64 policyId : list string)
    (newAssets : list Asset) (indices : list nat) : M (list Asset) :=
  match indices with
  | [] => ret newAssets
  | i :: rest =>
      a <- batchEntry ctx chunkId chunkDataBase64 policyId i ;;
      batchCheck ctx chunkId chunkDataBase64 policyId (newAssets ++ [a]) rest
  end.

(** The second loop: [for _, newAsset := range newAssets]. *)
Fixpoint batchCreate (ctx : TxContext) (newAssets : list Asset) : M unit :=
  match newAssets with
  | [] => ret tt
  | newAsset :: rest =>
      wrapping "failed to put asset to world state" (createAsset ctx newAsset) ;;;
      batchCreate ctx rest
  end.

Definition AddChunkWithPolicyBatch (ctx : TxContext)
    (chunkId chunkDataBase64 policyId : list string) : M unit :=
  if bool_decide (length chunkId <> length chunkDataBase64)
     || bool_decide (length chunkId <> length policyId)
  then fail SizeMismatch
  else
    newAssets <- batchCheck ctx chunkId chunkDataBase64 policyId []
                   (seq 0 (length chunkId)) ;;
    batchCreate ctx newAssets.

Definition ApplyPolicy (ctx : TxContext)
    (chunkId chunkDataBase64 policyId : string) : M unit :=
  asset <- readAsset chunkId ;;
  chunkData <- lift (wrap_result "unable to decode base64 input"
                       (base64DecodeJson chunkDataBase64)) ;;
  givenDataHash <- lift (wrap_result "unable to compute data hash"
                           (hash chunkData)) ;;
  if bool_decide (DataHash asset <> givenDataHash)
  then fail (Wrapped "unable to apply policy" IntegrityMismatch)
  else
    chunkExpiryPeriod <- lift (wrap_result "unable to apply policy"
                                (applyPolicyById (tx_Now ctx) chunkData policyId)) ;;
    chunkExpiryDate <- wrapping "unable to apply policy"
                         (computeExpiryDate chunkId chunkExpiryPeriod) ;;
    let asset := {| AppliedPolicyId := policyId;
                    ChunkId := ChunkId asset;
                    DataHash := DataHash asset;
                    ExpiryDate := chunkExpiryDate;
                    ExpiryPeriod := chunkExpiryPeriod |} in
    updateAsset ctx chunkId asset.

Definition UpdateChunkExpiryDate (ctx : TxContext) (id : string) : M unit :=
  asset <- wrapping "error reading the asset" (readAsset id) ;;
  if bool_decide (AppliedPolicyId asset = "") || (ExpiryPeriod asset =? 0)
  then fail (Wrapped "error updating chunk expiry time" PolicyNotApplied)
  else
    creationTime <- wrapping "error updating chunk expiry time"
                      (getAssetCreationTime id) ;;
    let expiryDate := Time_Add creationTime (ExpiryPeriod asset) in
    if bool_decide (expiryDate = ExpiryDate asset)
    then fail (Wrapped "error updating chunk expiry time" NoChange)
    else updateAssetExpiryDate ctx id expiryDate.

(** The body of [for resultsIterator.HasNext()] in [GetExpiredChunks];
    [assets] is the slice built so far. [count] is declared inside the
    loop body, as in the source. *)
Fixpoint GetExpiredChunks_loop (givenExpiryTime : Time) (assets : list Asset)
    (resultsIterator : list (string * Bytes)) : result (list Asset) :=
  match resultsIterator with
  | [] => Ok assets
  | queryResponse :: rest =>
      match of_option DecodeError (json_Unmarshal_Asset queryResponse.2) with
      | Err err => Err err
      | Ok asset =>
          let count := 0 in
          if bool_decide (ExpiryDate asset <> zeroTime)
             && Time_Before (ExpiryDate asset) givenExpiryTime
          then
            let assets := assets ++ [asset] in
            let count := count + 1 in
            if count =? 30 then Ok assets (* break *)
            else GetExpiredChunks_loop givenExpiryTime assets rest
          else GetExpiredChunks_loop givenExpiryTime assets rest
      end
  end.

Definition GetExpiredChunks (ctx : TxContext) (expiryDateRFC3339 : string)
  : M (list Asset) :=
  match time_Parse_RFC3339 expiryDateRFC3339 with
  | None => fail ParseError
  | Some givenExpiryTime =>
      if Time_After givenExpiryTime (tx_Now ctx) then fail FutureDateRejected
      else
        resultsIterator <- GetStateByRange_all ;;
        lift (GetExpiredChunks_loop givenExpiryTime [] resultsIterator)
  end.

Definition DeleteChunkIfExpired (ctx : TxContext) (chunkId : string) : M unit :=
  asset <- readAsset chunkId ;;
  if bool_decide (AppliedPolicyId asset = "") then fail PolicyNotApplied
  else if bool_decide (ExpiryDate asset = zeroTime) then fail ExpiryNotComputed
  else
    let now := tx_Now ctx in
    if Time_After (ExpiryDate asset) now then fail NotYetExpired
    else deleteAsset ctx chunkId.

Fixpoint GetAllAssets_loop (assets : list Asset)
    (resultsIterator : list (string * Bytes)) : result (list Asset) :=
  match resultsIterator with
  | [] => Ok assets
  | queryResponse :: rest =>
      match of_option DecodeError (json_Unmarshal_Asset queryResponse.2) with
      | Err err => Err err
      | Ok asset => GetAllAssets_loop (assets ++ [asset]) rest
      end
  end.

Definition GetAllAssets : M (list Asset) :=
  resultsIterator <- GetStateByRange_all ;;
  lift (GetAllAssets_loop [] resultsIterator).

Definition ChunkExisted (chunkId : string) : M bool :=
  h <- getAssetHistory chunkId ;;
  match h with
  | [] => ret false
  | _ :: _ => ret true
  end.

Definition ReadChunk (chunkId : string) : M Asset := readAsset chunkId.
End SmartContract.

(* ===================================================================== *)
(** ** A concrete instance, to run the model *)
(* ===================================================================== *)

(** A small stand-in for the library, enough to evaluate the chaincode on
    concrete ledgers: payloads are kept as the decoded records, the decoder
    knows a handful of base64 documents, documents are printed in the field
    order of the Go structs, and the digest of a document is the document
    itself. *)
Module Demo.

Definition noSamples : SensorData := mkSensorData None None None.

(** The [ChunkData] that [{"id":"<id>"}] decodes to. *)
Definition bare (id : string) : ChunkData :=
  mkChunkData id noSamples noSamples noSamples noSamples noSamples noSamples.


(** Two zero samples on every axis, but none on the Y axis of channel 3. *)
Definition gappy (id : string) : ChunkData :=
  let zeros : float64s := Some [0%float; 0%float] in
  let s := mkSensorData zeros zeros zeros in
  let g := mkSensorData zeros (Some []) zeros in
  mkChunkData id s s s g s s.

Definition decode (enc : string) : option ChunkData :=
  if decide (enc = "eyJpZCI6ImMxIn0=") then Some (bare "c1")          (* {"id":"c1"} *)
  else if decide (enc = "eyAiaWQiOiJjMSIgfQ==") then Some (bare "c1") (* { "id":"c1" } *)
  else if decide (enc = "eyJpZCI6ImMyIn0=") then Some (bare "c2")     (* {"id":"c2"} *)
  else if decide (enc = "e30=") then Some (bare "")                    (* {} *)
  else None.

Definition show_float (f : float) : option string :=
  match Prim2SF f with
  | S754_zero false => Some "0"
  | S754_zero true => Some "-0"
  | S754_finite s m e =>
      Some ((if s then "-" else "") +:+ pretty (Zpos m) +:+ "p" +:+ pretty e)
  | _ => None
  end.

Fixpoint show_list (l : list float) : option string :=
  match l with
  | [] => Some ""
  | [f] => show_float f
  | f :: rest =>
      match show_float f, show_list rest with
      | Some a, Some b => Some (a +:+ "," +:+ b)
      | _, _ => None
      end
  end.

Definition show_floats (s : float64s) : option string :=
  match s with
  | None => Some "null"
  | Some l => match show_list l with
              | Some body => Some ("[" +:+ body +:+ "]")
              | None => None
              end
  end.

Definition show_sensor (s : SensorData) : option string :=
  match show_floats (sd_X s), show_floats (sd_Y s), show_floats (sd_Z s) with
  | Some x, Some y, Some z =>
      Some ("{x:" +:+ x +:+ ",y:" +:+ y +:+ ",z:" +:+ z +:+ "}")
  | _, _, _ => None
  end.

Definition show_chunk (d : ChunkData) : option string :=
  match show_sensor (Sensor0 d), show_sensor (Sensor1 d), show_sensor (Sensor2 d),
        show_sensor (Sensor3 d), show_sensor (Sensor4 d), show_sensor (Sensor5 d) with
  | Some s0, Some s1, Some s2, Some s3, Some s4, Some s5 =>
      Some ("{id:" +:+ Id d +:+ ",0:" +:+ s0 +:+ ",1:" +:+ s1 +:+ ",2:" +:+ s2
            +:+ ",3:" +:+ s3 +:+ ",4:" +:+ s4 +:+ ",5:" +:+ s5 +:+ "}")
  | _, _, _, _, _, _ => None
  end.

(** 2014-11-12T11:45:26.371Z, the example of the chaincode's error
    message, and instants around it. *)
Definition t_cutoff : Time := mkTime 63551389526 371000000.
Definition at_second (s : Z) : Time := mkTime (63551386800 + s) 0.

Definition parse_time (s : string) : option Time :=
  if decide (s = "2014-11-12T11:45:26.371Z") then Some t_cutoff else None.

Definition lib : GoLib := {|
  Bytes := Asset;
  json_Marshal_Asset := Some;
  json_Unmarshal_Asset := Some;
  json_Marshal_ChunkData := show_chunk;
  json_Decode_base64 := decode;
  md5_Sum_hex := fun data => data;
  time_Parse_RFC3339 := parse_time;
  math_Pow := fun x y => (x * x)%float
|}.

(** A transaction with id [id], committed [s] seconds after 11:00:00 on
    2014-11-12 and executed on a peer whose clock shows that instant. *)
Definition tx (id : string) (s : Z) : TxContext :=
  mkTxContext id (at_second s) (at_second s).

(** Run an operation for its ledger, and for its result. *)
Definition exec {A} (m : @M lib A) (l : @Ledger lib) : @Ledger lib := (m l).2.
Definition eval {A} (m : @M lib A) (l : @Ledger lib) : result A := (m l).1.

(** A scenario: chunk [a] is created with the energy policy, its expiry
    date is computed ten seconds later, and it is deleted once expired. *)
Definition enc_c1 : string := "eyJpZCI6ImMxIn0=".        (* {"id":"c1"} *)
Definition enc_c2 : string := "eyJpZCI6ImMyIn0=".        (* {"id":"c2"} *)
Definition energy_id : string := "signal_energy_policy_v1".

Definition ledger1 : @Ledger lib := Eval vm_compute in
  exec (AddChunkWithPolicy (tx "tx1" 0) "a" enc_c1 energy_id) emptyLedger.
Definition ledger2 : @Ledger lib := Eval vm_compute in
  exec (UpdateChunkExpiryDate (tx "tx2" 10) "a") ledger1.
Definition ledger3 : @Ledger lib := Eval vm_compute in
  exec (DeleteChunkIfExpired (tx "tx3" 40) "a") ledger2.

(** A ledger with 31 chunks, [k1] to [k31], created in one batch with the
    energy policy, whose expiry dates were then computed: all of them
    expire at 11:00:31.8. *)
Definition ids31 : list string := map (fun i : nat => "k" +:+ pretty i) (seq 1 31).

Definition ledger31 : @Ledger lib := Eval vm_compute in
  fold_left (fun l id => exec (UpdateChunkExpiryDate (tx "tx2" 10) id) l) ids31
    (exec (AddChunkWithPolicyBatch (tx "tx1" 0) ids31
             (repeat enc_c1 31) (repeat energy_id 31)) emptyLedger).

(** What the query for the chunks expired before [t_cutoff], made at
    12:23:20, returns on that ledger. *)
Definition expired31 : list Asset :=
    match (GetExpiredChunks (tx "q" 5000) "2014-11-12T11:45:26.371Z" ledger31).1 with
    | Ok assets => assets
    | Err _ => []
    end.
End Demo.

(* ===================================================================== *)
(** ** Vocabulary of the specification *)
(* ===================================================================== *)

Section PolicyVocabulary.
Context `{GoLib}.

Inductive axis : Type := AxisX | AxisY | AxisZ.

(** The sensor channel of index [c], for [c] in 0..5. *)
Definition channel (d : ChunkData) (c : nat) : SensorData :=
  match c with
  | 0 => Sensor0 d | 1 => Sensor1 d | 2 => Sensor2 d
  | 3 => Sensor3 d | 4 => Sensor4 d | _ => Sensor5 d
  end%nat.

Definition samples (a : axis) (s : SensorData) : float64s :=
  match a with AxisX => sd_X s | AxisY => sd_Y s | AxisZ => sd_Z s end.

(** The axis that position [i mod 3] of the energy array belongs to. *)
Definition axis_of_index (r : nat) : axis :=
  match r with 0 => AxisX | 1 => AxisY | _ => AxisZ end%nat.

Definition axis_threshold (a : axis) : float :=
  match a with
  | AxisX => 1.8191607053598602e-6
  | AxisY => 1.2442575637320148e-6
  | AxisZ => 1.0956301130461567e-6
  end%float.

(** Mean signal energy of axis [a] of channel [c]. *)
Definition energy (d : ChunkData) (c : nat) (a : axis) : float :=
  computeSignalMeanEnergy (samples a (channel d c)).

(** Value number [i] of the 18 strictly exceeds the threshold of its axis. *)
Definition exceeds_at (d : ChunkData) (i : nat) : bool :=
  (axis_threshold (axis_of_index (i mod 3)) <? energy d (i / 3) (axis_of_index (i mod 3)))%float.

Definition any_exceeds (d : ChunkData) : bool :=
  existsb (exceeds_at d) (seq 0 18).

Definition shortExpiry : Duration := 31800 * Millisecond.
Definition longExpiry : Duration := 127200 * Millisecond.



(** The records [GetExpiredChunks] selects: the expiry date is set and
    strictly before the cutoff. *)
Definition expired_before (cutoff : Time) (a : Asset) : bool :=
  bool_decide (ExpiryDate a <> zeroTime) && Time_Before (ExpiryDate a) cutoff.

(** The comparisons the loop of [energyPolicyLogic] makes from position
    [j] of the X, Y, Z cycle on. *)
Fixpoint scan (j : nat) (vals : list float) : bool :=
  match vals with
  | [] => false
  | val :: rest =>
      (axis_threshold (axis_of_index j) <? val)%float
      || scan (if (j + 1 =? 3)%nat then 0%nat else (j + 1)%nat) rest
  end.
End PolicyVocabulary.

Section LedgerVocabulary.
Context `{GoLib}.

(** What [readAsset] returns, as a function of the world state. *)
Definition read_result (l : Ledger) (id : string) : result Asset :=
  match world l !! id with
  | None => Err (NotFound id)
  | Some b => of_option DecodeError (json_Unmarshal_Asset b)
  end.

(** What [getAssetCreationTime] returns, as a function of the history. *)
Definition creation_result (l : Ledger) (id : string) : result Time :=
  match getAssetHistory_loop id [] (history_of l id) with
  | Err err => Err err
  | Ok [] => Err EmptyHistory
  | Ok (h0 :: _) => Ok (hq_Timestamp h0)
  end.

(** The ledger after [PutState(key, value)] in transaction [ctx]. *)
Definition put (ctx : TxContext) (key : string) (value : Bytes) (l : Ledger)
  : Ledger := (PutState ctx key value l).2.
End LedgerVocabulary.

(* ===================================================================== *)
(** ** The rest of the policy file *)
(* ===================================================================== *)

(** The package-level functions of the policy file; [ApplyPolicy] is not
    the contract's method of the same name. *)
Module Package.

(** [func (d *ChunkData) applyPolicy(p PolicyInterface)] *)
Definition applyPolicy `{GoLib} (d : ChunkData) (now : Time) (p : Policy)
  : result Duration :=
  applyToChunkData p now d.

(** [func ApplyPolicy(policyId string, d ChunkData)] *)
Definition ApplyPolicy `{GoLib} (now : Time) (policyId : string) (d : ChunkData)
  : result Duration :=
  match getPolicy policyId with
  | Err err => Err (Wrapped "Policy not found" err)
  | Ok p => applyToChunkData p now d
  end.

(** [getDescription] and [getPolicyId] *)
Definition getDescription `{GoLib} (p : Policy) : string := p_Description p.
Definition getPolicyId `{GoLib} (p : Policy) : string := p_Id p.
End Package.

(* ===================================================================== *)
(** ** Transactions and ledgers built by them *)
(* ===================================================================== *)

Section TransactionVocabulary.
Context `{GoLib}.

(** The ledger after [DelState(key)] in transaction [ctx]. *)
Definition del (ctx : TxContext) (key : string) (l : Ledger) : Ledger :=
  (DelState ctx key l).2.

(** The ids of the registered policies and the durations they return. *)
Definition registered (policyId : string) : Prop :=
  policyId = "example_policy_v1" \/ policyId = "signal_energy_policy_v1".

Definition policy_duration (p : Duration) : Prop :=
  p = 24 * Hour \/ p = 48 * Hour
  \/ p = 31800 * Millisecond \/ p = 127200 * Millisecond.



(** The public transactions of the contract, with their arguments. *)
Inductive Transaction : Type :=
| TxAddChunk (chunkId chunkDataBase64 : string)
| TxAddChunkWithPolicy (chunkId chunkDataBase64 policyId : string)
| TxAddChunkWithPolicyBatch (chunkId chunkDataBase64 policyId : list string)
| TxApplyPolicy (chunkId chunkDataBase64 policyId : string)
| TxUpdateChunkExpiryDate (id : string)
| TxGetExpiredChunks (expiryDateRFC3339 : string)
| TxDeleteChunkIfExpired (chunkId : string)
| TxGetAllAssets
| TxChunkExisted (chunkId : string)
| TxReadChunk (chunkId : string).

(** The ledger a transaction leaves, whatever it returns. *)
Definition commit (ctx : TxContext) (tx : Transaction) (l : Ledger) : Ledger :=
  match tx with
  | TxAddChunk id enc => (AddChunk ctx id enc l).2
  | TxAddChunkWithPolicy id enc pid => (AddChunkWithPolicy ctx id enc pid l).2
  | TxAddChunkWithPolicyBatch ids encs pids =>
      (AddChunkWithPolicyBatch ctx ids encs pids l).2
  | TxApplyPolicy id enc pid => (ApplyPolicy ctx id enc pid l).2
  | TxUpdateChunkExpiryDate id => (UpdateChunkExpiryDate ctx id l).2
  | TxGetExpiredChunks s => (GetExpiredChunks ctx s l).2
  | TxDeleteChunkIfExpired id => (DeleteChunkIfExpired ctx id l).2
  | TxGetAllAssets => (GetAllAssets l).2
  | TxChunkExisted id => (ChunkExisted id l).2
  | TxReadChunk id => (ReadChunk id l).2
  end.

(** The ledger after a sequence of transactions. *)
Definition replay (txs : list (TxContext * Transaction)) (l : Ledger) : Ledger :=
  fold_left (fun l ct => commit ct.1 ct.2 l) txs l.

(** One write to the ledger: a serialised asset put under some key, or a
    key deleted. *)
Inductive write_step : Ledger -> Ledger -> Prop :=
| write_put ctx key a value l :
    json_Marshal_Asset a = Some value ->
    write_step l (put ctx key value l)
| write_del ctx key l :
    write_step l (del ctx key l).

(** The live records of the ledger in key order, as the range scan yields
    them, and their decodings. *)
Definition scan_all (l : Ledger) : list (string * Bytes) :=
  merge_sort key_le (map_to_list (world l)).

Definition decodes (records : list (string * Bytes)) (assets : list Asset) : Prop :=
  Forall2 (fun queryResponse asset =>
             json_Unmarshal_Asset queryResponse.2 = Some asset) records assets.
End TransactionVocabulary.

(** Concrete inputs for the transactions above. *)
Module Scenario.

(** Chunk [a] created without a policy in [tx1]. *)
Definition plain : @Ledger Demo.lib := Eval vm_compute in
  Demo.exec (AddChunk (Demo.tx "tx1" 0) "a" Demo.enc_c1) emptyLedger.

(** Chunks [a] and [b] created in one batch in [tx1] with the energy policy,
    the expiry date of [a] computed in [tx2]. *)
Definition pair : @Ledger Demo.lib := Eval vm_compute in
  Demo.exec (UpdateChunkExpiryDate (Demo.tx "tx2" 10) "a")
    (Demo.exec (AddChunkWithPolicyBatch (Demo.tx "tx1" 0) ["a"; "b"]
                  [Demo.enc_c1; Demo.enc_c2] [Demo.energy_id; Demo.energy_id])
       emptyLedger).

(** Chunk [a], created in [tx1] and deleted in [tx3] ([Demo.ledger3]),
    created again in [tx4] with the energy policy. *)
Definition recreated : @Ledger Demo.lib := Eval vm_compute in
  Demo.exec (AddChunkWithPolicy (Demo.tx "tx4" 50) "a" Demo.enc_c2 Demo.energy_id)
    Demo.ledger3.

(** A record that is not the serialisation of an asset cannot be written in
    [Demo.lib], whose payloads are assets; this library keeps payloads as
    text and decodes only the text ["ok"]. *)
Definition text_lib : GoLib := {|
  Bytes := string;
  json_Marshal_Asset := fun _ => Some "ok";
  json_Unmarshal_Asset := fun s =>
    if decide (s = "ok") then Some (mkAsset "" "a" "" zeroTime 0) else None;
  json_Marshal_ChunkData := Demo.show_chunk;
  json_Decode_base64 := Demo.decode;
  md5_Sum_hex := fun data => data;
  time_Parse_RFC3339 := Demo.parse_time;
  math_Pow := fun x y => (x * x)%float
|}.

(** A ledger of that library whose only record, under [a], does not decode. *)
Definition garbled : @Ledger text_lib := mkLedger (<["a" := "bad"]> ∅) ∅.
End Scenario.

Ltac run_monad :=
  unfold bind, ret, fail, lift, wrapping, wrap_result; cbn [fst snd].


(* ===================================================================== *)
(** ** Floating-point facts *)
(* ===================================================================== *)









(* ===================================================================== *)
(** ** The signal energy policy *)
(* ===================================================================== *)

Section PolicyFacts.
Context `{GoLib}.


(** The loop raises the expiry string exactly when one of its comparisons
    succeeds; a later iteration never lowers it again. *)
Lemma energy_loop_scan vals : forall j s, (j < 3)%nat ->
  (fold_left energyLoopBody vals (j, s)).2
  = if scan j vals then thrExpiryTimeString else s.
Proof.
  induction vals as [|val rest IH]; intros j s Hj; [reflexivity|].
  cbn [fold_left scan].
  destruct j as [|[|[|j]]]; try lia; cbn -[PrimFloat.ltb];
    rewrite IH by lia; cbn -[PrimFloat.ltb];
    repeat rewrite ?orb_false_r, ?andb_true_l;
    destruct (_ <? val)%float; destruct (scan _ rest); reflexivity.
Qed.

Lemma scan_any_exceeds d : scan 0 (energyArray d) = any_exceeds d.
Proof. reflexivity. Qed.

Lemma energyPolicyLogic_spec now d :
  energyPolicyLogic now d = Ok (if any_exceeds d then longExpiry else shortExpiry).
Proof.
  unfold energyPolicyLogic.
  assert (E := energy_loop_scan (energyArray d) 0%nat defaultExpiryTimeString
                 ltac:(lia)).
  rewrite scan_any_exceeds in E.
  destruct (fold_left energyLoopBody (energyArray d) (0%nat, defaultExpiryTimeString))
    as [j s]. cbn [snd] in E. subst s.
  destruct (any_exceeds d); reflexivity.
Qed.

Lemma applyPolicyById_energy now d :
  applyPolicyById now d "signal_energy_policy_v1" = energyPolicyLogic now d.
Proof. reflexivity. Qed.



Lemma mean_energy_empty s :
  elems s = [] -> computeSignalMeanEnergy s = nan.
Proof.
  intros E. unfold computeSignalMeanEnergy, computeSignalEnergy, float64_of_len.
  rewrite E. reflexivity.
Qed.

Lemma nan_below_threshold a : (axis_threshold a <? nan)%float = false.
Proof. destruct a; reflexivity. Qed.


Lemma any_exceeds_false d :
  (forall i, (i < 18)%nat -> exceeds_at d i = false) -> any_exceeds d = false.
Proof.
  intros Hi. unfold any_exceeds.
  apply not_true_is_false. intros (i & Hin & Ht)%existsb_exists.
  apply in_seq in Hin. rewrite Hi in Ht by lia. discriminate.
Qed.
End PolicyFacts.

Section PolicyClaims.
Context `{GoLib}.


(** C4. The mean energy of an empty sample sequence is [0 / 0], a NaN; a
    NaN is not above any of the thresholds; the policy returns a duration
    for every [ChunkData]; and when some axis is empty and no non-empty
    axis is above its threshold, that duration is the short expiry,
    31800 ms. *)
Theorem C4_empty_axis_short_expiry (now : Time) (d : ChunkData) :
  (forall s, elems s = [] -> computeSignalMeanEnergy s = nan)
  /\ (forall a, (axis_threshold a <? nan)%float = false)
  /\ (exists dur, applyPolicyById now d "signal_energy_policy_v1" = Ok dur)
  /\ ((exists c a, (c < 6)%nat /\ elems (samples a (channel d c)) = []) ->
      (forall i, (i < 18)%nat ->
         elems (samples (axis_of_index (i mod 3)) (channel d (i / 3))) <> [] ->
         exceeds_at d i = false) ->
      applyPolicyById now d "signal_energy_policy_v1" = Ok shortExpiry).
Proof.
  split; [apply mean_energy_empty|].
  split; [apply nan_below_threshold|].
  rewrite applyPolicyById_energy, energyPolicyLogic_spec.
  split; [eauto|].
  intros _ Hfull. rewrite any_exceeds_false; [reflexivity|].
  intros i Hi.
  destruct (elems (samples (axis_of_index (i mod 3)) (channel d (i / 3)))) eqn:E.
  - unfold exceeds_at, energy. rewrite mean_energy_empty by exact E.
    apply nan_below_threshold.
  - apply Hfull; [exact Hi|]. rewrite E. discriminate.
Qed.
End PolicyClaims.


Lemma C4_witness :
  @applyPolicyById Demo.lib Demo.t_cutoff (Demo.gappy "c1")
    "signal_energy_policy_v1" = Ok shortExpiry.
Proof.
  refine (proj2 (proj2 (proj2
    (@C4_empty_axis_short_expiry Demo.lib Demo.t_cutoff (Demo.gappy "c1")))) _ _).
  - exists 3%nat, AxisY. split; [lia | reflexivity].
  - intros i Hi _. do 18 (destruct i as [|i]; [reflexivity|]). lia.
Defined.

(* ===================================================================== *)
(** ** Running the private transactions *)
(* ===================================================================== *)

Section PrivateTransactions.
Context `{GoLib}.
Local Open Scope go_scope.

Lemma assetExists_run id l :
  assetExists id l = (Ok (bool_decide (world l !! id <> None)), l).
Proof. reflexivity. Qed.

Lemma readAsset_run id l : readAsset id l = (read_result l id, l).
Proof.
  unfold readAsset, read_result, GetState. run_monad.
  destruct (world l !! id); reflexivity.
Qed.

Lemma getAssetHistory_run id l :
  getAssetHistory id l = (getAssetHistory_loop id [] (history_of l id), l).
Proof. reflexivity. Qed.

Lemma getAssetCreationTime_run id l :
  getAssetCreationTime id l = (creation_result l id, l).
Proof.
  unfold getAssetCreationTime, creation_result. run_monad.
  rewrite getAssetHistory_run.
  destruct (getAssetHistory_loop id [] (history_of l id)) as [[|h0 h]|e]; reflexivity.
Qed.

Lemma computeExpiryDate_run id period l :
  computeExpiryDate id period l
  = (match creation_result l id with
     | Ok creationTime => Ok (Time_Add creationTime period)
     | Err err => Err (Wrapped "error getting creation timestamp" err)
     end, l).
Proof.
  unfold computeExpiryDate. run_monad. rewrite getAssetCreationTime_run.
  destruct (creation_result l id); reflexivity.
Qed.

Lemma updateAsset_run ctx id a l :
  updateAsset ctx id a l
  = if bool_decide (ChunkId a <> id)
    then (Err (Wrapped "unable to update asset" IdMismatch), l)
    else match read_result l id with
         | Err err => (Err (Wrapped "unable to update asset" err), l)
         | Ok _ =>
             match json_Marshal_Asset a with
             | None => (Err EncodeError, l)
             | Some assetBytes => (Ok tt, put ctx id assetBytes l)
             end
         end.
Proof.
  unfold updateAsset. case_bool_decide; [reflexivity|]. run_monad.
  rewrite readAsset_run. destruct (read_result l id); [|reflexivity].
  destruct (json_Marshal_Asset a); reflexivity.
Qed.

Lemma createAsset_run ctx a l :
  createAsset ctx a l
  = if bool_decide (world l !! ChunkId a <> None)
    then (Err (AlreadyExists (ChunkId a)), l)
    else match json_Marshal_Asset a with
         | None => (Err EncodeError, l)
         | Some assetJSON => (Ok tt, put ctx (ChunkId a) assetJSON l)
         end.
Proof.
  unfold createAsset. run_monad. rewrite assetExists_run.
  case_bool_decide; [reflexivity|].
  destruct (json_Marshal_Asset a); reflexivity.
Qed.

(** The history loop keeps the order and the timestamps of the entries. *)
Lemma getAssetHistory_loop_timestamps id it : forall records h,
  getAssetHistory_loop id records it = Ok h ->
  exists tail, h = records ++ tail
               /\ map hq_Timestamp tail = map km_Timestamp it.
Proof.
  induction it as [|response rest IH]; intros records h Hh; simpl in Hh.
  - exists []. inversion Hh. by rewrite app_nil_r.
  - destruct (match km_Value response with
              | Some value => of_option DecodeError (json_Unmarshal_Asset value)
              | None => Ok (mkAsset "" id "" zeroTime 0)
              end) as [asset|e]; [|discriminate].
    apply IH in Hh as (tail & -> & Ht).
    eexists (_ :: tail). rewrite <- app_assoc. split; [reflexivity|].
    simpl. by rewrite Ht.
Qed.

Lemma getAssetHistory_loop_nil id it records :
  getAssetHistory_loop id records it = Ok [] -> it = [].
Proof.
  intros (tail & E & Ht)%getAssetHistory_loop_timestamps.
  symmetry in E. apply app_eq_nil in E as [_ ->].
  by destruct it.
Qed.

Lemma creation_result_first l id e rest h :
  history_of l id = e :: rest ->
  getAssetHistory_loop id [] (history_of l id) = Ok h ->
  creation_result l id = Ok (km_Timestamp e).
Proof.
  intros Hh Hl. unfold creation_result. rewrite Hl.
  rewrite Hh in Hl. apply getAssetHistory_loop_timestamps in Hl as (tail & -> & Ht).
  destruct tail as [|h0 tail]; [discriminate|]. simpl in *. congruence.
Qed.

Lemma creation_result_empty l id :
  creation_result l id = Err EmptyHistory <-> history_of l id = [].
Proof.
  unfold creation_result. split.
  - destruct (getAssetHistory_loop id [] (history_of l id)) as [[|h0 h]|e] eqn:E;
      try discriminate.
    + intros _. by apply getAssetHistory_loop_nil in E.
    + intros [= ->]. exfalso. revert E. generalize (@nil HistoryQueryResult).
      induction (history_of l id) as [|r rest IH]; intros acc; simpl; [discriminate|].
      destruct (km_Value r) as [v|]; simpl; [|apply IH].
      destruct (json_Unmarshal_Asset v); simpl; [apply IH|discriminate].
  - intros ->. reflexivity.
Qed.

(** [t.Add(d)] moves the instant by exactly [d] nanoseconds. *)
Lemma Time_Add_nanos t d :
  Time_valid t ->
  Time_nanos (Time_Add t d) = Time_nanos t + d /\ Time_valid (Time_Add t d).
Proof.
  unfold Time_valid, Time_nanos, Time_Add. intros Ht.
  pose proof (Z.quot_rem' d 1000000000) as E.
  pose proof (Z.rem_bound_abs d 1000000000 ltac:(lia)) as B.
  repeat case_match; simpl; lia.
Qed.
End PrivateTransactions.

Section CreationTimeClaims.
Context `{GoLib}.

(** C8. [getAssetCreationTime] fails with [EmptyHistory] exactly when the
    history of the key is empty. When the history is read and is not
    empty, it returns the timestamp of the first (oldest) entry, and
    [computeExpiryDate] returns that timestamp moved by the given period,
    which is exactly [period] nanoseconds later. *)
Theorem C8_creation_time_and_expiry_date (l : Ledger) (id : string) :
  ((getAssetCreationTime id l).1 = Err EmptyHistory <-> history_of l id = [])
  /\ (forall e rest h,
        history_of l id = e :: rest ->
        (getAssetHistory id l).1 = Ok h ->
        (getAssetCreationTime id l).1 = Ok (km_Timestamp e)
        /\ forall period,
             (computeExpiryDate id period l).1
               = Ok (Time_Add (km_Timestamp e) period)
             /\ (Time_valid (km_Timestamp e) ->
                 Time_nanos (Time_Add (km_Timestamp e) period)
                 = Time_nanos (km_Timestamp e) + period)).
Proof.
  rewrite getAssetCreationTime_run. cbn [fst]. split.
  - apply creation_result_empty.
  - intros e rest h He Hh. rewrite getAssetHistory_run in Hh. cbn [fst] in Hh.
    pose proof (creation_result_first l id e rest h He Hh) as Hc.
    split; [exact Hc|]. intros period.
    rewrite computeExpiryDate_run, Hc. cbn [fst]. split; [reflexivity|].
    intros Hv. by apply Time_Add_nanos.
Qed.
End CreationTimeClaims.

Lemma C8_witness :
  (@getAssetCreationTime Demo.lib "a" Demo.ledger2).1 = Ok (Demo.at_second 0)
  /\ (@computeExpiryDate Demo.lib "a" (31800 * Millisecond) Demo.ledger2).1
     = Ok (mkTime 63551386831 800000000).
Proof.
  destruct (proj2 (@C8_creation_time_and_expiry_date Demo.lib Demo.ledger2 "a")
              _ _ _ ltac:(reflexivity) ltac:(reflexivity))
    as [Hc Hp].
  split; [exact Hc|]. exact (proj1 (Hp (31800 * Millisecond))).
Defined.

(* ===================================================================== *)
(** ** Running the public transactions *)
(* ===================================================================== *)

Section PublicTransactions.
Context `{GoLib}.
Local Open Scope go_scope.

Lemma getAssetHistory_loop_error id it : forall records e,
  getAssetHistory_loop id records it = Err e -> e = DecodeError.
Proof.
  induction it as [|r rest IH]; intros records e; simpl; [discriminate|].
  destruct (km_Value r) as [v|]; simpl; [|apply IH].
  destruct (json_Unmarshal_Asset v); simpl; [apply IH|congruence].
Qed.

Lemma getAssetHistory_loop_app id it1 it2 : forall records,
  getAssetHistory_loop id records (it1 ++ it2)
  = match getAssetHistory_loop id records it1 with
    | Ok h => getAssetHistory_loop id h it2
    | Err err => Err err
    end.
Proof.
  induction it1 as [|r rest IH]; intros records; simpl; [reflexivity|].
  destruct (match km_Value r with
            | Some value => of_option DecodeError (json_Unmarshal_Asset value)
            | None => Ok (mkAsset "" id "" zeroTime 0)
            end); [apply IH|reflexivity].
Qed.

Lemma creation_result_error l id e :
  creation_result l id = Err e -> e = EmptyHistory \/ e = DecodeError.
Proof.
  unfold creation_result.
  destruct (getAssetHistory_loop id [] (history_of l id)) as [[|h0 h]|e'] eqn:E.
  - intros [= <-]. by left.
  - discriminate.
  - intros [= <-]. right. by eapply getAssetHistory_loop_error.
Qed.

(** A policy evaluation fails only for an id that is not registered. *)
Lemma applyPolicyById_error now d pid e :
  applyPolicyById now d pid = Err e ->
  e = Wrapped "unable to find policy" (PolicyNotFound pid).
Proof.
  unfold applyPolicyById, getPolicy, AvailablePolicies.
  rewrite lookup_insert. case_decide as E1.
  { unfold applyToChunkData, examplePolicy, examplePolicyLogic; simpl.
    destruct (_ =? 0); discriminate. }
  rewrite lookup_insert. case_decide as E2.
  { unfold applyToChunkData, energyPolicy, p_Logic.
    rewrite energyPolicyLogic_spec. discriminate. }
  rewrite lookup_empty. congruence.
Qed.

(** *** The ledger after a write *)

Lemma world_put ctx key value l k :
  world (put ctx key value l) !! k
  = if decide (key = k) then Some value else world l !! k.
Proof. unfold put, PutState. cbn [snd world]. apply lookup_insert. Qed.

Lemma history_of_put ctx key value l :
  history_of (put ctx key value l) key
  = history_of l key
    ++ [mkKeyModification (tx_Id ctx) (Some value) (tx_Timestamp ctx) false].
Proof.
  unfold put, PutState, history_of at 1. cbn [snd history].
  by rewrite lookup_insert_eq.
Qed.

Lemma read_result_put ctx id a assetBytes l :
  json_Asset_roundtrip -> json_Marshal_Asset a = Some assetBytes ->
  read_result (put ctx id assetBytes l) id = Ok a.
Proof.
  intros Hrt Hm. unfold read_result. rewrite world_put.
  rewrite decide_True by done. by rewrite (Hrt _ _ Hm).
Qed.

Lemma creation_result_put ctx id a assetBytes l t :
  json_Asset_roundtrip -> json_Marshal_Asset a = Some assetBytes ->
  creation_result l id = Ok t ->
  creation_result (put ctx id assetBytes l) id = Ok t.
Proof.
  intros Hrt Hm. unfold creation_result. rewrite history_of_put.
  rewrite getAssetHistory_loop_app.
  destruct (getAssetHistory_loop id [] (history_of l id)) as [[|h0 h]|e];
    try discriminate.
  intros [= <-]. simpl. by rewrite (Hrt _ _ Hm).
Qed.

(** *** [ApplyPolicy] *)

Lemma ApplyPolicy_run ctx chunkId chunkDataBase64 policyId l :
  ApplyPolicy ctx chunkId chunkDataBase64 policyId l
  = match read_result l chunkId with
    | Err err => (Err err, l)
    | Ok asset =>
    match base64DecodeJson chunkDataBase64 with
    | Err err => (Err (Wrapped "unable to decode base64 input" err), l)
    | Ok chunkData =>
    match hash chunkData with
    | Err err => (Err (Wrapped "unable to compute data hash" err), l)
    | Ok givenDataHash =>
    if bool_decide (DataHash asset <> givenDataHash)
    then (Err (Wrapped "unable to apply policy" IntegrityMismatch), l)
    else
    match applyPolicyById (tx_Now ctx) chunkData policyId with
    | Err err => (Err (Wrapped "unable to apply policy" err), l)
    | Ok chunkExpiryPeriod =>
    match creation_result l chunkId with
    | Err err =>
        (Err (Wrapped "unable to apply policy"
                (Wrapped "error getting creation timestamp" err)), l)
    | Ok creationTime =>
        updateAsset ctx chunkId
          (mkAsset policyId (ChunkId asset) (DataHash asset)
             (Time_Add creationTime chunkExpiryPeriod) chunkExpiryPeriod) l
    end end end end end.
Proof.
  unfold ApplyPolicy. run_monad. rewrite readAsset_run.
  destruct (read_result l chunkId) as [asset|]; [|reflexivity].
  destruct (base64DecodeJson chunkDataBase64) as [chunkData|]; [|reflexivity].
  destruct (hash chunkData) as [givenDataHash|]; [|reflexivity].
  case_bool_decide; [reflexivity|].
  destruct (applyPolicyById _ _ _); [|reflexivity].
  rewrite computeExpiryDate_run.
  destruct (creation_result l chunkId); reflexivity.
Qed.

(** *** [UpdateChunkExpiryDate] *)

Lemma UpdateChunkExpiryDate_run ctx id l :
  UpdateChunkExpiryDate ctx id l
  = match read_result l id with
    | Err err => (Err (Wrapped "error reading the asset" err), l)
    | Ok asset =>
    if bool_decide (AppliedPolicyId asset = "") || (ExpiryPeriod asset =? 0)
    then (Err (Wrapped "error updating chunk expiry time" PolicyNotApplied), l)
    else
    match creation_result l id with
    | Err err => (Err (Wrapped "error updating chunk expiry time" err), l)
    | Ok creationTime =>
        if bool_decide (Time_Add creationTime (ExpiryPeriod asset) = ExpiryDate asset)
        then (Err (Wrapped "error updating chunk expiry time" NoChange), l)
        else updateAsset ctx id
               (set_ExpiryDate asset (Time_Add creationTime (ExpiryPeriod asset))) l
    end end.
Proof.
  unfold UpdateChunkExpiryDate. run_monad. rewrite readAsset_run.
  destruct (read_result l id) as [asset|] eqn:Hr; [|reflexivity].
  destruct (_ || _); [reflexivity|].
  rewrite getAssetCreationTime_run.
  destruct (creation_result l id); [|reflexivity].
  case_bool_decide; [reflexivity|].
  unfold updateAssetExpiryDate. run_monad. rewrite readAsset_run, Hr.
  reflexivity.
Qed.
End PublicTransactions.

Section MutationClaims.
Context `{GoLib}.

(** C5. For an existing asset and chunk data that decodes and hashes,
    [ApplyPolicy] fails with [IntegrityMismatch] exactly when the hash of
    the decoded data differs from the stored [DataHash]; in that case the
    ledger is left as it was. *)
Theorem C5_ApplyPolicy_integrity ctx l chunkId chunkDataBase64 policyId
    asset chunkData givenDataHash :
  (readAsset chunkId l).1 = Ok asset ->
  base64DecodeJson chunkDataBase64 = Ok chunkData ->
  hash chunkData = Ok givenDataHash ->
  (failure (ApplyPolicy ctx chunkId chunkDataBase64 policyId l).1
     = Some IntegrityMismatch
   <-> givenDataHash <> DataHash asset)
  /\ (givenDataHash <> DataHash asset ->
      ApplyPolicy ctx chunkId chunkDataBase64 policyId l
      = (Err (Wrapped "unable to apply policy" IntegrityMismatch), l)).
Proof.
  rewrite readAsset_run. cbn [fst]. intros Hr Hd Hh.
  rewrite ApplyPolicy_run, Hr, Hd, Hh.
  case_bool_decide as Hne.
  { split; [|reflexivity]. split; [congruence|reflexivity]. }
  split; [|congruence]. split; [|congruence]. intros Hf. exfalso.
  destruct (applyPolicyById _ _ _) as [p|e] eqn:Ep.
  2:{ apply applyPolicyById_error in Ep as ->. discriminate. }
  destruct (creation_result l chunkId) as [t|e] eqn:Ec.
  2:{ apply creation_result_error in Ec as [-> | ->]; discriminate. }
  rewrite updateAsset_run, Hr in Hf.
  case_bool_decide; [discriminate|].
  destruct (json_Marshal_Asset _); discriminate.
Qed.

(** An [ApplyPolicy] either leaves the ledger as it was or writes, under
    the asset's key, the asset with its three policy fields replaced. *)
Lemma ApplyPolicy_effect ctx l chunkId chunkDataBase64 policyId asset :
  read_result l chunkId = Ok asset ->
  (ApplyPolicy ctx chunkId chunkDataBase64 policyId l).2 = l
  \/ exists expiryDate expiryPeriod assetBytes,
       json_Marshal_Asset (mkAsset policyId (ChunkId asset) (DataHash asset)
                             expiryDate expiryPeriod) = Some assetBytes
       /\ (ApplyPolicy ctx chunkId chunkDataBase64 policyId l).2
          = put ctx chunkId assetBytes l.
Proof.
  intros Hr. rewrite ApplyPolicy_run, Hr.
  repeat (case_match; try (by left)).
  rewrite updateAsset_run, Hr.
  repeat (case_match; try (by left)).
  right. eauto.
Qed.

(** An [UpdateChunkExpiryDate] either leaves the ledger as it was or
    writes, under the asset's key, the asset with a new [ExpiryDate]. *)
Lemma UpdateChunkExpiryDate_effect ctx l id asset :
  read_result l id = Ok asset ->
  (UpdateChunkExpiryDate ctx id l).2 = l
  \/ exists expiryDate assetBytes,
       json_Marshal_Asset (set_ExpiryDate asset expiryDate) = Some assetBytes
       /\ (UpdateChunkExpiryDate ctx id l).2 = put ctx id assetBytes l.
Proof.
  intros Hr. rewrite UpdateChunkExpiryDate_run, Hr.
  repeat (case_match; try (by left)).
  rewrite updateAsset_run, Hr.
  repeat (case_match; try (by left)).
  right. eauto.
Qed.

(** C9. For an existing asset, after [ApplyPolicy] the asset under the key
    still has its [ChunkId] and [DataHash], and after
    [UpdateChunkExpiryDate] it still has every field but [ExpiryDate];
    neither operation touches the value of another key. *)
Theorem C9_mutations_keep_identity_and_hash ctx l id asset :
  json_Asset_roundtrip ->
  (readAsset id l).1 = Ok asset ->
  (forall chunkDataBase64 policyId,
     let l' := (ApplyPolicy ctx id chunkDataBase64 policyId l).2 in
     (exists asset', (readAsset id l').1 = Ok asset'
                     /\ ChunkId asset' = ChunkId asset
                     /\ DataHash asset' = DataHash asset)
     /\ forall k, k <> id -> world l' !! k = world l !! k)
  /\ (let l' := (UpdateChunkExpiryDate ctx id l).2 in
      (exists asset', (readAsset id l').1 = Ok asset'
                      /\ ChunkId asset' = ChunkId asset
                      /\ DataHash asset' = DataHash asset
                      /\ AppliedPolicyId asset' = AppliedPolicyId asset
                      /\ ExpiryPeriod asset' = ExpiryPeriod asset)
      /\ forall k, k <> id -> world l' !! k = world l !! k).
Proof.
  intros Hrt. rewrite readAsset_run. cbn [fst]. intros Hr. split.
  - intros enc pid. cbv zeta.
    destruct (ApplyPolicy_effect ctx l id enc pid asset Hr)
      as [-> | (t & p & b & Hm & ->)].
    + split; [|done]. exists asset. by rewrite readAsset_run.
    + split.
      * eexists. rewrite readAsset_run. cbn [fst].
        rewrite (read_result_put _ _ _ _ _ Hrt Hm). done.
      * intros k Hk. rewrite world_put. by rewrite decide_False.
  - cbv zeta.
    destruct (UpdateChunkExpiryDate_effect ctx l id asset Hr)
      as [-> | (t & b & Hm & ->)].
    + split; [|done]. exists asset. by rewrite readAsset_run.
    + split.
      * eexists. rewrite readAsset_run. cbn [fst].
        rewrite (read_result_put _ _ _ _ _ Hrt Hm). done.
      * intros k Hk. rewrite world_put. by rewrite decide_False.
Qed.

(** C6. For an existing asset, [UpdateChunkExpiryDate] fails with
    [PolicyNotApplied] when [AppliedPolicyId] is empty or [ExpiryPeriod]
    is zero; otherwise, when the creation time plus the stored period
    equals the stored [ExpiryDate], it fails with [NoChange]. Both
    failures leave the ledger as it was. Hence, after a call that
    succeeded or that failed with [NoChange], a second call fails with
    [NoChange] and writes nothing. *)
Theorem C6_UpdateChunkExpiryDate_guards ctx l id asset :
  (readAsset id l).1 = Ok asset ->
  (AppliedPolicyId asset = "" \/ ExpiryPeriod asset = 0 ->
   UpdateChunkExpiryDate ctx id l
   = (Err (Wrapped "error updating chunk expiry time" PolicyNotApplied), l))
  /\ (forall creationTime,
        AppliedPolicyId asset <> "" -> ExpiryPeriod asset <> 0 ->
        (getAssetCreationTime id l).1 = Ok creationTime ->
        Time_Add creationTime (ExpiryPeriod asset) = ExpiryDate asset ->
        UpdateChunkExpiryDate ctx id l
        = (Err (Wrapped "error updating chunk expiry time" NoChange), l))
  /\ (json_Asset_roundtrip ->
      forall r l1,
        UpdateChunkExpiryDate ctx id l = (r, l1) ->
        r = Ok tt \/ failure r = Some NoChange ->
        forall ctx2, UpdateChunkExpiryDate ctx2 id l1
                     = (Err (Wrapped "error updating chunk expiry time" NoChange), l1)).
Proof.
  rewrite readAsset_run. cbn [fst]. intros Hr.
  split; [|split].
  - intros Hno. rewrite UpdateChunkExpiryDate_run, Hr.
    destruct Hno as [-> | ->]; [reflexivity|].
    by rewrite orb_true_r.
  - intros t Hp Hz. rewrite getAssetCreationTime_run. cbn [fst]. intros Hc He.
    rewrite UpdateChunkExpiryDate_run, Hr, Hc.
    rewrite bool_decide_false by done.
    rewrite (proj2 (Z.eqb_neq _ _) Hz). cbn [orb].
    by rewrite bool_decide_true.
  - intros Hrt r l1. rewrite UpdateChunkExpiryDate_run, Hr.
    destruct (bool_decide (AppliedPolicyId asset = "") || (ExpiryPeriod asset =? 0))
      eqn:Eg.
    { intros [= <- <-] [?|?]; discriminate. }
    destruct (creation_result l id) as [t|e] eqn:Ec.
    2:{ apply creation_result_error in Ec as [-> | ->];
        intros [= <- <-] [?|?]; discriminate. }
    destruct (bool_decide (Time_Add t (ExpiryPeriod asset) = ExpiryDate asset))
      eqn:Ed.
    { (* the first call already failed with NoChange: same ledger, same guard *)
      intros [= <- <-] _ ctx2.
      by rewrite UpdateChunkExpiryDate_run, Hr, Eg, Ec, Ed. }
    rewrite updateAsset_run, Hr.
    destruct (bool_decide (ChunkId _ <> id)).
    { intros [= <- <-] [?|?]; discriminate. }
    destruct (json_Marshal_Asset _) as [b|] eqn:Em.
    2:{ intros [= <- <-] [?|?]; discriminate. }
    intros [= <- <-] _ ctx2.
    rewrite UpdateChunkExpiryDate_run.
    rewrite (read_result_put _ _ _ _ _ Hrt Em).
    cbn [set_ExpiryDate AppliedPolicyId ExpiryPeriod ExpiryDate]. rewrite Eg.
    rewrite (creation_result_put _ _ _ _ _ _ Hrt Em Ec).
    by rewrite bool_decide_true.
Qed.
End MutationClaims.

Lemma Demo_roundtrip : @json_Asset_roundtrip Demo.lib.
Proof. intros a b [= ->]. reflexivity. Qed.

Lemma C5_witness :
  @ApplyPolicy Demo.lib (Demo.tx "tx2" 10) "a" Demo.enc_c2 Demo.energy_id Demo.ledger1
  = (Err (Wrapped "unable to apply policy" IntegrityMismatch), Demo.ledger1).
Proof.
  refine (proj2 (@C5_ApplyPolicy_integrity Demo.lib (Demo.tx "tx2" 10) Demo.ledger1
                   "a" Demo.enc_c2 Demo.energy_id _ _ _ _ _ _) _).
  - reflexivity.
  - reflexivity.
  - reflexivity.
  - vm_compute. discriminate.
Defined.

Lemma C9_witness :
  exists asset',
    (@readAsset Demo.lib "a"
       (@ApplyPolicy Demo.lib (Demo.tx "tx2" 10) "a" Demo.enc_c1 "example_policy_v1"
          Demo.ledger1).2).1 = Ok asset'
    /\ ChunkId asset' = "a"
    /\ AppliedPolicyId asset' = "example_policy_v1".
Proof.
  destruct (proj1 (@C9_mutations_keep_identity_and_hash Demo.lib (Demo.tx "tx2" 10)
                     Demo.ledger1 "a" _ Demo_roundtrip
                     ltac:(reflexivity))
              Demo.enc_c1 "example_policy_v1") as [(asset' & Hr & Hid & _) _].
  exists asset'. split; [exact Hr|]. split; [exact Hid|].
  revert Hr. vm_compute. intros [= <-]. reflexivity.
Defined.

Lemma C6_witness :
  @UpdateChunkExpiryDate Demo.lib (Demo.tx "tx3" 20) "a" Demo.ledger2
  = (Err (Wrapped "error updating chunk expiry time" NoChange), Demo.ledger2).
Proof.
  refine (proj2 (proj2 (@C6_UpdateChunkExpiryDate_guards Demo.lib (Demo.tx "tx2" 10)
                          Demo.ledger1 "a" _ _)) Demo_roundtrip (Ok tt) Demo.ledger2
            _ _ (Demo.tx "tx3" 20)).
  - reflexivity.
  - reflexivity.
  - left. reflexivity.
Defined.

(* ===================================================================== *)
(** ** Batch creation *)
(* ===================================================================== *)

Section BatchFacts.
Context `{GoLib}.

(** The checks on one entry only read the ledger. *)
Lemma batchEntry_ledger ctx chunkId chunkDataBase64 policyId i l :
  (batchEntry ctx chunkId chunkDataBase64 policyId i l).2 = l.
Proof.
  unfold batchEntry, index, bind, ret, fail, lift.
  destruct (chunkId !! i) as [id|]; [|reflexivity].
  rewrite assetExists_run.
  destruct (bool_decide (world l !! id <> None)); [reflexivity|].
  destruct (chunkDataBase64 !! i) as [enc|]; [|reflexivity].
  destruct (wrap_result _ (base64DecodeJson enc)) as [chunkData|]; [|reflexivity].
  destruct (wrap_result _ (hash chunkData)); [|reflexivity].
  destruct (policyId !! i) as [pid|]; [|reflexivity].
  destruct (wrap_result _ (applyPolicyById _ chunkData pid)); reflexivity.
Qed.

Lemma batchCheck_ledger ctx chunkId chunkDataBase64 policyId indices :
  forall newAssets l,
    (batchCheck ctx chunkId chunkDataBase64 policyId newAssets indices l).2 = l.
Proof.
  induction indices as [|i rest IH]; intros newAssets l; [reflexivity|].
  cbn [batchCheck]. unfold bind.
  pose proof (batchEntry_ledger ctx chunkId chunkDataBase64 policyId i l) as E.
  destruct (batchEntry ctx chunkId chunkDataBase64 policyId i l) as [[a|e] l'];
    cbn [snd] in E; subst l'; [apply IH|reflexivity].
Qed.

(** The first loop fails as soon as the checks on one entry fail. *)
Lemma batchCheck_fails ctx chunkId chunkDataBase64 policyId indices k e :
  forall newAssets l,
    k ∈ indices ->
    (batchEntry ctx chunkId chunkDataBase64 policyId k l).1 = Err e ->
    is_Err (batchCheck ctx chunkId chunkDataBase64 policyId newAssets indices l).1
    = true.
Proof.
  induction indices as [|i rest IH]; intros newAssets l Hk He.
  { by apply elem_of_nil in Hk. }
  cbn [batchCheck]. unfold bind.
  pose proof (batchEntry_ledger ctx chunkId chunkDataBase64 policyId i l) as E.
  destruct (batchEntry ctx chunkId chunkDataBase64 policyId i l) as [[a|e'] l'] eqn:Ei;
    cbn [snd] in E; subst l'; [|reflexivity].
  apply elem_of_cons in Hk as [-> | Hk].
  - rewrite Ei in He. discriminate.
  - by apply IH.
Qed.

Lemma AddChunkWithPolicyBatch_check_fails ctx chunkId chunkDataBase64 policyId l :
  is_Err (batchCheck ctx chunkId chunkDataBase64 policyId []
            (seq 0 (length chunkId)) l).1 = true ->
  is_Err (AddChunkWithPolicyBatch ctx chunkId chunkDataBase64 policyId l).1 = true
  /\ (AddChunkWithPolicyBatch ctx chunkId chunkDataBase64 policyId l).2 = l.
Proof.
  intros Hc. unfold AddChunkWithPolicyBatch.
  destruct (_ || _); [done|]. unfold bind.
  pose proof (batchCheck_ledger ctx chunkId chunkDataBase64 policyId
                (seq 0 (length chunkId)) [] l) as E.
  destruct (batchCheck _ _ _ _ _ _ l) as [[a|e] l'];
    cbn [fst snd] in *; subst; done.
Qed.

Lemma AddChunkWithPolicyBatch_entry_fails ctx chunkId chunkDataBase64 policyId l k e :
  (k < length chunkId)%nat ->
  (batchEntry ctx chunkId chunkDataBase64 policyId k l).1 = Err e ->
  is_Err (AddChunkWithPolicyBatch ctx chunkId chunkDataBase64 policyId l).1 = true
  /\ (AddChunkWithPolicyBatch ctx chunkId chunkDataBase64 policyId l).2 = l.
Proof.
  intros Hk He. apply AddChunkWithPolicyBatch_check_fails.
  eapply batchCheck_fails; [|exact He].
  apply list_elem_of_In, in_seq. lia.
Qed.
End BatchFacts.

Section BatchClaims.
Context `{GoLib}.

(** C7. [AddChunkWithPolicyBatch] fails with [SizeMismatch], writing
    nothing, when the three arrays differ in length. When the checks on
    some entry fail (existence, decoding, hashing, policy evaluation), the
    whole call fails and nothing is written: the ledger is as it was, so
    the value under every key, the named ids included, is unchanged. *)
Theorem C7_batch_validates_before_writing ctx l chunkId chunkDataBase64 policyId :
  (length chunkId <> length chunkDataBase64 \/ length chunkId <> length policyId ->
   AddChunkWithPolicyBatch ctx chunkId chunkDataBase64 policyId l
   = (Err SizeMismatch, l))
  /\ (forall k e,
        (k < length chunkId)%nat ->
        (batchEntry ctx chunkId chunkDataBase64 policyId k l).1 = Err e ->
        is_Err (AddChunkWithPolicyBatch ctx chunkId chunkDataBase64 policyId l).1 = true
        /\ (AddChunkWithPolicyBatch ctx chunkId chunkDataBase64 policyId l).2 = l
        /\ forall id,
             world (AddChunkWithPolicyBatch ctx chunkId chunkDataBase64 policyId l).2
               !! id = world l !! id).
Proof.
  split.
  - intros Hne. unfold AddChunkWithPolicyBatch.
    destruct Hne as [Hne | Hne].
    + by rewrite bool_decide_true.
    + rewrite (bool_decide_true _ Hne). by rewrite orb_true_r.
  - intros k e Hk He.
    destruct (AddChunkWithPolicyBatch_entry_fails ctx chunkId chunkDataBase64 policyId
                l k e Hk He) as [Hf Hl].
    split; [exact Hf|]. split; [exact Hl|]. intros id. by rewrite Hl.
Qed.
End BatchClaims.

Lemma C7_witness :
  @AddChunkWithPolicyBatch Demo.lib (Demo.tx "tx1" 0) ["a"; "b"]
    [Demo.enc_c1; Demo.enc_c2] [Demo.energy_id] emptyLedger
  = (Err SizeMismatch, emptyLedger)
  /\ (@AddChunkWithPolicyBatch Demo.lib (Demo.tx "tx2" 10) ["b"; "a"]
        [Demo.enc_c2; Demo.enc_c1] [Demo.energy_id; Demo.energy_id] Demo.ledger1).2
     = Demo.ledger1.
Proof.
  split.
  - refine (proj1 (@C7_batch_validates_before_writing Demo.lib _ _ _ _ _) _).
    right. vm_compute. lia.
  - refine (proj1 (proj2 (proj2 (@C7_batch_validates_before_writing Demo.lib
                       (Demo.tx "tx2" 10) Demo.ledger1 ["b"; "a"]
                       [Demo.enc_c2; Demo.enc_c1] [Demo.energy_id; Demo.energy_id])
                     1%nat _ _ _))).
    + vm_compute. lia.
    + reflexivity.
Defined.

(* ===================================================================== *)
(** ** Creation *)
(* ===================================================================== *)

Section CreationClaims.
Context `{GoLib}.

End CreationClaims.



(* ===================================================================== *)
(** ** The integrity hash *)
(* ===================================================================== *)

Section HashClaims.
Context `{GoLib}.


End HashClaims.


(* ===================================================================== *)
(** ** The scan for expired chunks *)
(* ===================================================================== *)

Section ExpiredChunks.
Context `{GoLib}.

(** [count] starts from 0 in every iteration, so it is never 30 and the
    loop never breaks: it returns every selected record. *)
Lemma GetExpiredChunks_loop_all givenExpiryTime resultsIterator decoded :
  Forall2 (fun queryResponse asset =>
             json_Unmarshal_Asset queryResponse.2 = Some asset)
          resultsIterator decoded ->
  forall assets,
    GetExpiredChunks_loop givenExpiryTime assets resultsIterator
    = Ok (assets ++ filter (fun a => expired_before givenExpiryTime a) decoded).
Proof.
  induction 1 as [|queryResponse asset rest tail Hq _ IH]; intros assets.
  - simpl. by rewrite app_nil_r.
  - cbn [GetExpiredChunks_loop]. rewrite Hq. cbn [of_option].
    change (bool_decide (ExpiryDate asset <> zeroTime)
            && Time_Before (ExpiryDate asset) givenExpiryTime)
      with (expired_before givenExpiryTime asset).
    rewrite filter_cons.
    destruct (decide (expired_before givenExpiryTime asset)) as [Ht|Hf].
    + apply Is_true_true in Ht. rewrite Ht.
      change (0 + 1 =? 30) with false. cbn iota.
      rewrite IH. by rewrite <- app_assoc.
    + apply Is_true_false in Hf. rewrite Hf. apply IH.
Qed.
End ExpiredChunks.

(** C1 fails on the code: on a ledger of 31 chunks whose expiry dates are
    set and before the cutoff 2014-11-12T11:45:26.371Z, a query made later
    that day returns all 31 of them, one more than the cap. *)
Theorem C1_GetExpiredChunks_returns_31 :
  (@GetExpiredChunks Demo.lib (Demo.tx "q" 5000) "2014-11-12T11:45:26.371Z"
     Demo.ledger31).1 = Ok Demo.expired31
  /\ length Demo.expired31 = 31%nat
  /\ forallb (expired_before Demo.t_cutoff) Demo.expired31 = true
  /\ map ChunkId Demo.expired31
     = merge_sort (fun a b : string => String.leb a b) Demo.ids31.
Proof. vm_compute. repeat split; reflexivity. Qed.

(* ===================================================================== *)
(** ** Further properties: the policy registry *)
(* ===================================================================== *)

Section RegistryFacts.
Context `{GoLib}.

Lemma getPolicy_cases id :
  (id = "example_policy_v1" /\ getPolicy id = Ok examplePolicy)
  \/ (id = "signal_energy_policy_v1" /\ getPolicy id = Ok energyPolicy)
  \/ (~ registered id /\ getPolicy id = Err (PolicyNotFound id)).
Proof.
  unfold getPolicy, AvailablePolicies, registered.
  rewrite lookup_insert. case_decide as E1; [left; by subst|].
  rewrite lookup_insert. case_decide as E2; [right; left; by subst|].
  rewrite lookup_empty. right. right. split; [|reflexivity].
  intros [-> | ->]; [by apply E1 | by apply E2].
Qed.

Lemma examplePolicyLogic_cases now d :
  examplePolicyLogic now d = Ok (24 * Hour)
  \/ examplePolicyLogic now d = Ok (48 * Hour).
Proof.
  unfold examplePolicyLogic. destruct (Time_Second now mod 2 =? 0); [right|left];
    reflexivity.
Qed.

(** X1. [getPolicy] finds a policy exactly for the two registered ids, and
    the policy it returns carries the id it was asked for; any other id
    fails with [PolicyNotFound] for that id. *)
Theorem X1_getPolicy_registered_ids id :
  match getPolicy id with
  | Ok p => registered id /\ p_Id p = id
  | Err e => ~ registered id /\ e = PolicyNotFound id
  end.
Proof.
  destruct (getPolicy_cases id) as [[-> ->] | [[-> ->] | [Hn ->]]].
  - split; [by left | reflexivity].
  - split; [by right | reflexivity].
  - by split.
Qed.

Lemma applyPolicyById_cases now d pid :
  match applyPolicyById now d pid with
  | Ok p => registered pid /\ policy_duration p
  | Err e => ~ registered pid
             /\ e = Wrapped "unable to find policy" (PolicyNotFound pid)
  end.
Proof.
  unfold applyPolicyById, policy_duration.
  destruct (getPolicy_cases pid) as [[-> ->] | [[-> ->] | [Hn ->]]].
  - unfold applyToChunkData, examplePolicy, p_Logic.
    destruct (examplePolicyLogic_cases now d) as [-> | ->];
      (split; [by left | tauto]).
  - unfold applyToChunkData, energyPolicy, p_Logic.
    rewrite energyPolicyLogic_spec.
    split; [by right|]. destruct (any_exceeds d); tauto.
  - by split.
Qed.

Lemma policy_duration_positive p : policy_duration p -> 0 < p.
Proof. intros [-> | [-> | [-> | ->]]]; reflexivity. Qed.

Lemma registered_nonempty pid : registered pid -> pid <> "".
Proof. intros [-> | ->]; discriminate. Qed.

(** X2. Evaluating a policy by id fails only for an id that is not
    registered, with [PolicyNotFound]; for a registered id it returns one of
    the four durations 24 h, 48 h, 31800 ms and 127200 ms, which are all
    positive: a policy never returns the zero period that means "no policy
    applied". *)
Theorem X2_applyPolicyById_results now d pid :
  match applyPolicyById now d pid with
  | Ok p => registered pid /\ policy_duration p /\ 0 < p
  | Err e => ~ registered pid
             /\ e = Wrapped "unable to find policy" (PolicyNotFound pid)
  end.
Proof.
  pose proof (applyPolicyById_cases now d pid) as Hc.
  destruct (applyPolicyById now d pid); [|exact Hc].
  destruct Hc as [Hr Hd]. auto using policy_duration_positive.
Qed.

(** X3. The package-level [ApplyPolicy(policyId, d)] and the method
    [d.applyPolicyById(policyId)] return the same duration when one of them
    succeeds, and fail together with the same [PolicyNotFound] cause. *)
Theorem X3_ApplyPolicy_agrees_with_applyPolicyById now d pid :
  match applyPolicyById now d pid with
  | Ok p => Package.ApplyPolicy now pid d = Ok p
  | Err e =>
      failure (Package.ApplyPolicy now pid d) = Some (PolicyNotFound pid)
      /\ root_cause e = PolicyNotFound pid
  end.
Proof.
  pose proof (applyPolicyById_cases now d pid) as Hc.
  unfold Package.ApplyPolicy, applyPolicyById in *.
  destruct (getPolicy pid) as [p|e0] eqn:Eg.
  - destruct (applyToChunkData p now d); [reflexivity|].
    destruct Hc as [_ ->]. by split.
  - destruct Hc as [_ [= ->]]. by split.
Qed.

(** X4. [example_policy_v1] does not look at the chunk data, and two
    evaluations whose clock readings are one second apart never agree: one
    returns 24 h and the other 48 h. *)
Theorem X4_examplePolicy_depends_on_the_clock sec nsec d d' :
  examplePolicyLogic (mkTime sec nsec) d = examplePolicyLogic (mkTime sec nsec) d'
  /\ examplePolicyLogic (mkTime (sec + 1) nsec) d
     <> examplePolicyLogic (mkTime sec nsec) d'.
Proof.
  split; [reflexivity|].
  unfold examplePolicyLogic, Time_Second. cbn [t_sec].
  assert (E : forall s, s mod 60 mod 2 = s mod 2).
  { intros s. apply Z.mod_mod_divide. by exists 30. }
  rewrite !E. rewrite <- Zplus_mod_idemp_l.
  pose proof (Z.mod_pos_bound sec 2 ltac:(lia)) as B.
  assert (Hc : sec mod 2 = 0 \/ sec mod 2 = 1) by lia.
  destruct Hc as [-> | ->]; discriminate.
Qed.
End RegistryFacts.

(* ===================================================================== *)
(** ** Further properties: the atomic private transactions *)
(* ===================================================================== *)

Section StoreFacts.
Context `{GoLib}.

Lemma world_del ctx key l k :
  world (del ctx key l) !! k = if decide (key = k) then None else world l !! k.
Proof. unfold del, DelState. cbn [snd world]. apply lookup_delete. Qed.

Lemma history_of_del ctx key l :
  history_of (del ctx key l) key
  = history_of l key ++ [mkKeyModification (tx_Id ctx) None (tx_Timestamp ctx) true].
Proof.
  unfold del, DelState, history_of at 1. cbn [snd history].
  by rewrite lookup_insert_eq.
Qed.

Lemma history_of_put_ne ctx key value l k :
  key <> k -> history_of (put ctx key value l) k = history_of l k.
Proof.
  intros Hne. unfold put, PutState, history_of at 1. cbn [snd history].
  by rewrite lookup_insert_ne.
Qed.

Lemma history_of_del_ne ctx key l k :
  key <> k -> history_of (del ctx key l) k = history_of l k.
Proof.
  intros Hne. unfold del, DelState, history_of at 1. cbn [snd history].
  by rewrite lookup_insert_ne.
Qed.

Lemma deleteAsset_run ctx id l :
  deleteAsset ctx id l
  = if bool_decide (world l !! id <> None) then (Ok tt, del ctx id l)
    else (Err (NotFound id), l).
Proof.
  unfold deleteAsset, bind. rewrite assetExists_run.
  by destruct (bool_decide (world l !! id <> None)).
Qed.

Lemma read_result_del ctx id l : read_result (del ctx id l) id = Err (NotFound id).
Proof. unfold read_result. rewrite world_del. by rewrite decide_True. Qed.


(** X6. [updateAsset] fails with [IdMismatch] when the asset does not name
    the given id, and with [NotFound] when the id has no live record; both
    failures write nothing. When it succeeds, [readAsset] returns the new
    asset, the other keys are untouched and the history of the key has one
    more entry. *)
Theorem X6_updateAsset_overwrites_existing ctx id a l :
  (ChunkId a <> id ->
   updateAsset ctx id a l = (Err (Wrapped "unable to update asset" IdMismatch), l))
  /\ (ChunkId a = id -> world l !! id = None ->
      updateAsset ctx id a l
      = (Err (Wrapped "unable to update asset" (NotFound id)), l))
  /\ (json_Asset_roundtrip ->
      forall l', updateAsset ctx id a l = (Ok tt, l') ->
        ChunkId a = id
        /\ (exists old, readAsset id l = (Ok old, l))
        /\ readAsset id l' = (Ok a, l')
        /\ (forall k, k <> id -> world l' !! k = world l !! k)
        /\ length (history_of l' id) = S (length (history_of l id))).
Proof.
  rewrite updateAsset_run. split; [|split].
  - intros Hne. by rewrite bool_decide_true.
  - intros He Hn. rewrite bool_decide_false by (intros Hc; by apply Hc).
    unfold read_result. by rewrite Hn.
  - intros Hrt l'. case_bool_decide as Hid; [discriminate|].
    destruct (read_result l id) as [old|] eqn:Hr; [|discriminate].
    destruct (json_Marshal_Asset a) as [b|] eqn:Hm; [|discriminate].
    intros [= <-]. split; [|split; [|split; [|split]]].
    + destruct (decide (ChunkId a = id)); [done | by destruct Hid].
    + exists old. by rewrite readAsset_run, Hr.
    + rewrite readAsset_run. by rewrite (read_result_put _ _ _ _ _ Hrt Hm).
    + intros k Hk. rewrite world_put. by rewrite decide_False.
    + rewrite history_of_put, length_app. simpl. lia.
Qed.

(** X7. [deleteAsset] fails with [NotFound], writing nothing, when the id
    has no live record. Otherwise it succeeds: the id is no longer live,
    [readAsset] fails with [NotFound], the other keys are untouched, and the
    history of the key ends with a deletion entry stamped with the
    transaction. *)
Theorem X7_deleteAsset_removes_the_record ctx id l :
  (world l !! id = None -> deleteAsset ctx id l = (Err (NotFound id), l))
  /\ (forall value, world l !! id = Some value ->
      exists l', deleteAsset ctx id l = (Ok tt, l')
        /\ world l' !! id = None
        /\ readAsset id l' = (Err (NotFound id), l')
        /\ (forall k, k <> id -> world l' !! k = world l !! k)
        /\ history_of l' id
           = history_of l id
             ++ [mkKeyModification (tx_Id ctx) None (tx_Timestamp ctx) true]).
Proof.
  rewrite deleteAsset_run. split.
  - intros Hn. rewrite bool_decide_false; [reflexivity|].
    intros Hc. by apply Hc.
  - intros value Hv. rewrite bool_decide_true by congruence.
    exists (del ctx id l). split; [reflexivity|]. split; [|split; [|split]].
    + rewrite world_del. by rewrite decide_True.
    + by rewrite readAsset_run, read_result_del.
    + intros k Hk. rewrite world_del. by rewrite decide_False.
    + apply history_of_del.
Qed.
End StoreFacts.


Lemma X6_witness :
  let a := mkAsset "example_policy_v1" "a" "h" zeroTime (24 * Hour) in
  let l' := (@updateAsset Demo.lib (Demo.tx "tx2" 10) "a" a Scenario.plain).2 in
  @readAsset Demo.lib "a" l' = (Ok a, l').
Proof.
  intros a l'.
  exact (proj1 (proj2 (proj2 (proj2 (proj2
           (@X6_updateAsset_overwrites_existing Demo.lib (Demo.tx "tx2" 10) "a" a
              Scenario.plain)) Demo_roundtrip l' ltac:(reflexivity))))).
Defined.

Lemma X7_witness :
  exists l', @deleteAsset Demo.lib (Demo.tx "tx2" 10) "a" Scenario.plain = (Ok tt, l')
             /\ @readAsset Demo.lib "a" l' = (Err (NotFound "a"), l').
Proof.
  destruct (proj2 (@X7_deleteAsset_removes_the_record Demo.lib (Demo.tx "tx2" 10)
                     "a" Scenario.plain) _ ltac:(reflexivity))
    as (l' & Hd & _ & Hr & _).
  exists l'. split; [exact Hd | exact Hr].
Defined.

(* ===================================================================== *)
(** ** Further properties: creation and deletion *)
(* ===================================================================== *)

Section LifecycleFacts.
Context `{GoLib}.

Lemma AddChunk_run ctx chunkId chunkDataBase64 l :
  AddChunk ctx chunkId chunkDataBase64 l
  = if bool_decide (world l !! chunkId <> None)
    then (Err (AlreadyExists chunkId), l)
    else
    match base64DecodeJson chunkDataBase64 with
    | Err err => (Err (Wrapped "unable to decode base64 input" err), l)
    | Ok chunkData =>
    match hash chunkData with
    | Err err => (Err (Wrapped "unable to compute data hash" err), l)
    | Ok chunkDataHash =>
        createAsset ctx (mkAsset "" chunkId chunkDataHash zeroTime 0) l
    end end.
Proof.
  unfold AddChunk, bind, lift. rewrite assetExists_run.
  destruct (bool_decide (world l !! chunkId <> None)); [reflexivity|].
  destruct (base64DecodeJson chunkDataBase64) as [d|]; [|reflexivity].
  cbn [wrap_result]. destruct (hash d); reflexivity.
Qed.

Lemma AddChunkWithPolicy_run ctx chunkId chunkDataBase64 policyId l :
  AddChunkWithPolicy ctx chunkId chunkDataBase64 policyId l
  = if bool_decide (world l !! chunkId <> None)
    then (Err (AlreadyExists chunkId), l)
    else
    match base64DecodeJson chunkDataBase64 with
    | Err err => (Err (Wrapped "unable to decode base64 input" err), l)
    | Ok chunkData =>
    match hash chunkData with
    | Err err => (Err (Wrapped "unable to compute data hash" err), l)
    | Ok chunkDataHash =>
    match applyPolicyById (tx_Now ctx) chunkData policyId with
    | Err err => (Err (Wrapped "unable to apply policy" err), l)
    | Ok chunkExpiryPeriod =>
        createAsset ctx
          (mkAsset policyId chunkId chunkDataHash zeroTime chunkExpiryPeriod) l
    end end end.
Proof.
  unfold AddChunkWithPolicy, bind, lift. rewrite assetExists_run.
  destruct (bool_decide (world l !! chunkId <> None)); [reflexivity|].
  destruct (base64DecodeJson chunkDataBase64) as [d|]; [|reflexivity].
  cbn [wrap_result]. destruct (hash d); [|reflexivity].
  cbn [wrap_result]. destruct (applyPolicyById _ _ _); reflexivity.
Qed.

Lemma DeleteChunkIfExpired_run ctx chunkId l :
  DeleteChunkIfExpired ctx chunkId l
  = match read_result l chunkId with
    | Err err => (Err err, l)
    | Ok asset =>
        if bool_decide (AppliedPolicyId asset = "") then (Err PolicyNotApplied, l)
        else if bool_decide (ExpiryDate asset = zeroTime)
        then (Err ExpiryNotComputed, l)
        else if Time_After (ExpiryDate asset) (tx_Now ctx)
        then (Err NotYetExpired, l)
        else (Ok tt, del ctx chunkId l)
    end.
Proof.
  unfold DeleteChunkIfExpired, bind. rewrite readAsset_run.
  unfold read_result.
  destruct (world l !! chunkId) as [value|] eqn:Hw; [|reflexivity].
  destruct (of_option DecodeError (json_Unmarshal_Asset value)) as [asset|];
    [|reflexivity].
  destruct (bool_decide (AppliedPolicyId asset = "")); [reflexivity|].
  destruct (bool_decide (ExpiryDate asset = zeroTime)); [reflexivity|].
  destruct (Time_After _ _); [reflexivity|].
  rewrite deleteAsset_run. rewrite bool_decide_true; [reflexivity | congruence].
Qed.

Lemma createAsset_failed ctx a l :
  is_Err (createAsset ctx a l).1 = true -> (createAsset ctx a l).2 = l.
Proof.
  rewrite createAsset_run.
  destruct (bool_decide _); [done|]. by destruct (json_Marshal_Asset a).
Qed.

Lemma updateAsset_failed ctx id a l :
  is_Err (updateAsset ctx id a l).1 = true -> (updateAsset ctx id a l).2 = l.
Proof.
  rewrite updateAsset_run.
  destruct (bool_decide _); [done|]. destruct (read_result l id); [|done].
  by destruct (json_Marshal_Asset a).
Qed.

(** X8. A transaction on a single chunk that returns an error has written
    nothing: [AddChunk], [AddChunkWithPolicy], [ApplyPolicy],
    [UpdateChunkExpiryDate] and [DeleteChunkIfExpired] leave the ledger as
    it was whenever they fail. *)
Theorem X8_failed_transaction_writes_nothing ctx l :
  (forall id enc,
     is_Err (AddChunk ctx id enc l).1 = true -> (AddChunk ctx id enc l).2 = l)
  /\ (forall id enc pid,
        is_Err (AddChunkWithPolicy ctx id enc pid l).1 = true ->
        (AddChunkWithPolicy ctx id enc pid l).2 = l)
  /\ (forall id enc pid,
        is_Err (ApplyPolicy ctx id enc pid l).1 = true ->
        (ApplyPolicy ctx id enc pid l).2 = l)
  /\ (forall id,
        is_Err (UpdateChunkExpiryDate ctx id l).1 = true ->
        (UpdateChunkExpiryDate ctx id l).2 = l)
  /\ (forall id,
        is_Err (DeleteChunkIfExpired ctx id l).1 = true ->
        (DeleteChunkIfExpired ctx id l).2 = l).
Proof.
  repeat split.
  - intros id enc. rewrite AddChunk_run.
    destruct (bool_decide _); [done|]. destruct (base64DecodeJson enc); [|done].
    destruct (hash _); [|done]. apply createAsset_failed.
  - intros id enc pid. rewrite AddChunkWithPolicy_run.
    destruct (bool_decide _); [done|]. destruct (base64DecodeJson enc); [|done].
    destruct (hash _); [|done]. destruct (applyPolicyById _ _ _); [|done].
    apply createAsset_failed.
  - intros id enc pid. rewrite ApplyPolicy_run.
    destruct (read_result l id); [|done]. destruct (base64DecodeJson enc); [|done].
    destruct (hash _); [|done]. destruct (bool_decide _); [done|].
    destruct (applyPolicyById _ _ _); [|done].
    destruct (creation_result l id); [|done]. apply updateAsset_failed.
  - intros id. rewrite UpdateChunkExpiryDate_run.
    destruct (read_result l id); [|done]. destruct (_ || _); [done|].
    destruct (creation_result l id); [|done]. destruct (bool_decide _); [done|].
    apply updateAsset_failed.
  - intros id. rewrite DeleteChunkIfExpired_run.
    destruct (read_result l id); [|done].
    repeat (destruct (bool_decide _); [done|]).
    by destruct (Time_After _ _).
Qed.

Lemma Time_After_irrefl t : Time_After t t = false.
Proof.
  unfold Time_After. rewrite !Z.ltb_irrefl. by rewrite andb_false_r.
Qed.

(** X9. For an existing asset, [DeleteChunkIfExpired] checks, in this
    order: a policy has been applied ([PolicyNotApplied]), the expiry date
    is set ([ExpiryNotComputed]), and the expiry date is not after the
    peer's clock ([NotYetExpired]); an asset that expires exactly at the
    clock reading passes. A failed check writes nothing. When the checks
    pass the record is deleted: the id is no longer live, [readAsset] fails
    with [NotFound], the other keys are untouched, and [ChunkExisted] does
    not report false. *)
Theorem X9_DeleteChunkIfExpired_guards ctx l chunkId asset :
  (readAsset chunkId l).1 = Ok asset ->
  (AppliedPolicyId asset = "" ->
   DeleteChunkIfExpired ctx chunkId l = (Err PolicyNotApplied, l))
  /\ (AppliedPolicyId asset <> "" -> ExpiryDate asset = zeroTime ->
      DeleteChunkIfExpired ctx chunkId l = (Err ExpiryNotComputed, l))
  /\ (AppliedPolicyId asset <> "" -> ExpiryDate asset <> zeroTime ->
      Time_After (ExpiryDate asset) (tx_Now ctx) = true ->
      DeleteChunkIfExpired ctx chunkId l = (Err NotYetExpired, l))
  /\ (AppliedPolicyId asset <> "" -> ExpiryDate asset <> zeroTime ->
      Time_After (ExpiryDate asset) (tx_Now ctx) = false
      \/ ExpiryDate asset = tx_Now ctx ->
      exists l', DeleteChunkIfExpired ctx chunkId l = (Ok tt, l')
        /\ world l' !! chunkId = None
        /\ readAsset chunkId l' = (Err (NotFound chunkId), l')
        /\ (forall k, k <> chunkId -> world l' !! k = world l !! k)
        /\ (ChunkExisted chunkId l').1 <> Ok false).
Proof.
  rewrite readAsset_run. cbn [fst]. intros Hr.
  rewrite DeleteChunkIfExpired_run, Hr. repeat split.
  - intros Hp. by rewrite bool_decide_true.
  - intros Hp Hd. rewrite bool_decide_false by done. by rewrite bool_decide_true.
  - intros Hp Hd Ha. rewrite !bool_decide_false by done. by rewrite Ha.
  - intros Hp Hd Ha. rewrite !bool_decide_false by done.
    assert (Hna : Time_After (ExpiryDate asset) (tx_Now ctx) = false).
    { destruct Ha as [Ha | <-]; [exact Ha | apply Time_After_irrefl]. }
    rewrite Hna. exists (del ctx chunkId l). split; [reflexivity|].
    split; [|split; [|split]].
    + rewrite world_del. by rewrite decide_True.
    + by rewrite readAsset_run, read_result_del.
    + intros k Hk. rewrite world_del. by rewrite decide_False.
    + unfold ChunkExisted, bind. rewrite getAssetHistory_run.
      destruct (getAssetHistory_loop chunkId [] (history_of (del ctx chunkId l) chunkId))
        as [[|h0 h]|e] eqn:Eh; try discriminate.
      apply getAssetHistory_loop_nil in Eh. rewrite history_of_del in Eh.
      by destruct (history_of l chunkId).
Qed.
End LifecycleFacts.

Lemma X8_witness :
  (@ApplyPolicy Demo.lib (Demo.tx "tx2" 10) "a" Demo.enc_c2 Demo.energy_id
     Demo.ledger1).2 = Demo.ledger1.
Proof.
  exact (proj1 (proj2 (proj2 (@X8_failed_transaction_writes_nothing Demo.lib
           (Demo.tx "tx2" 10) Demo.ledger1)))
           "a" Demo.enc_c2 Demo.energy_id ltac:(reflexivity)).
Defined.

Lemma X9_witness :
  @DeleteChunkIfExpired Demo.lib (Demo.tx "tx3" 20) "a" Demo.ledger2
  = (Err NotYetExpired, Demo.ledger2)
  /\ exists l', @DeleteChunkIfExpired Demo.lib (Demo.tx "tx3" 40) "a" Demo.ledger2
                = (Ok tt, l')
                /\ @readAsset Demo.lib "a" l' = (Err (NotFound "a"), l').
Proof.
  split.
  - refine (proj1 (proj2 (proj2 (@X9_DeleteChunkIfExpired_guards Demo.lib
              (Demo.tx "tx3" 20) Demo.ledger2 "a" _ _))) _ _ _);
      [reflexivity | discriminate | discriminate | reflexivity].
  - destruct (proj2 (proj2 (proj2 (@X9_DeleteChunkIfExpired_guards Demo.lib
                (Demo.tx "tx3" 40) Demo.ledger2 "a" _ ltac:(reflexivity))))
                ltac:(discriminate) ltac:(discriminate) ltac:(left; reflexivity))
      as (l' & Hd & _ & Hr & _).
    exists l'. split; [exact Hd | exact Hr].
Defined.

(* ===================================================================== *)
(** ** Further properties: batch creation *)
(* ===================================================================== *)

Section BatchOutcomes.
Context `{GoLib}.

(** What a successful check of entry [i] has established. *)
Lemma batchEntry_ok ctx chunkId chunkDataBase64 policyId i l a l' :
  batchEntry ctx chunkId chunkDataBase64 policyId i l = (Ok a, l') ->
  l' = l
  /\ exists id enc pid d h p,
       chunkId !! i = Some id /\ chunkDataBase64 !! i = Some enc
       /\ policyId !! i = Some pid /\ world l !! id = None
       /\ base64DecodeJson enc = Ok d /\ hash d = Ok h
       /\ applyPolicyById (tx_Now ctx) d pid = Ok p
       /\ a = mkAsset pid id h zeroTime p.
Proof.
  unfold batchEntry, index, bind, ret, fail, lift.
  destruct (chunkId !! i) as [id|]; [|discriminate].
  rewrite assetExists_run.
  destruct (bool_decide (world l !! id <> None)) eqn:Ex; [discriminate|].
  destruct (chunkDataBase64 !! i) as [enc|]; [|discriminate].
  destruct (base64DecodeJson enc) as [d|] eqn:Hd; [|discriminate]. cbn [wrap_result].
  destruct (hash d) as [h|] eqn:Hh; [|discriminate]. cbn [wrap_result].
  destruct (policyId !! i) as [pid|]; [|discriminate].
  destruct (applyPolicyById _ d pid) as [p|] eqn:Hp; [|discriminate].
  cbn [wrap_result]. intros [= <- <-]. split; [reflexivity|].
  exists id, enc, pid, d, h, p. repeat split; try done.
  apply bool_decide_eq_false in Ex.
  destruct (world l !! id); [|reflexivity]. by destruct Ex.
Qed.

Lemma batchCheck_ok ctx chunkId chunkDataBase64 policyId indices :
  forall newAssets l assets l',
    batchCheck ctx chunkId chunkDataBase64 policyId newAssets indices l
    = (Ok assets, l') ->
    l' = l
    /\ exists checked,
         assets = newAssets ++ checked
         /\ Forall2 (fun i a =>
                       batchEntry ctx chunkId chunkDataBase64 policyId i l = (Ok a, l))
                    indices checked.
Proof.
  induction indices as [|i rest IH]; intros newAssets l assets l'.
  - intros [= <- <-]. split; [reflexivity|]. exists []. by rewrite app_nil_r.
  - cbn [batchCheck]. unfold bind.
    destruct (batchEntry ctx chunkId chunkDataBase64 policyId i l) as [[a|e] l1] eqn:Ei;
      [|discriminate].
    destruct (batchEntry_ok _ _ _ _ _ _ _ _ Ei) as [-> _].
    intros (-> & checked & -> & Hf)%IH. split; [reflexivity|].
    exists (a :: checked). rewrite <- app_assoc. split; [reflexivity|].
    by constructor.
Qed.

(** The second loop either creates every asset, or stops at the first one
    that cannot be created and keeps what it has written before. *)
Lemma batchCreate_ok ctx newAssets : forall l l',
  batchCreate ctx newAssets l = (Ok tt, l') ->
  NoDup (map ChunkId newAssets)
  /\ (forall k, k ∉ map ChunkId newAssets -> world l' !! k = world l !! k)
  /\ (forall a, a ∈ newAssets ->
        world l !! ChunkId a = None
        /\ exists value, json_Marshal_Asset a = Some value
                         /\ world l' !! ChunkId a = Some value).
Proof.
  induction newAssets as [|a rest IH]; intros l l'.
  - intros [= <-]. split; [constructor|]. split; [done|].
    intros a Ha. by apply elem_of_nil in Ha.
  - cbn [batchCreate]. unfold bind, wrapping. rewrite createAsset_run.
    destruct (bool_decide (world l !! ChunkId a <> None)) eqn:Ex; [discriminate|].
    destruct (json_Marshal_Asset a) as [b|] eqn:Hm; [|discriminate].
    cbn [wrap_result]. intros (Hnd & Hout & Hin)%IH.
    apply bool_decide_eq_false in Ex.
    assert (Hfree : world l !! ChunkId a = None).
    { destruct (world l !! ChunkId a); [|reflexivity]. by destruct Ex. }
    assert (Hnot : ChunkId a ∉ map ChunkId rest).
    { intros (r & Hid & Hr)%list_elem_of_fmap.
      destruct (Hin r Hr) as [Hn _]. rewrite <- Hid, world_put in Hn.
      by rewrite decide_True in Hn. }
    split; [|split].
    + cbn [map]. by apply NoDup_cons.
    + intros k Hk. cbn [map] in Hk. apply not_elem_of_cons in Hk as [Hne Hk].
      rewrite (Hout k Hk), world_put. by rewrite decide_False.
    + intros r [-> | Hr]%elem_of_cons.
      * split; [exact Hfree|]. exists b. split; [exact Hm|].
        rewrite (Hout _ Hnot), world_put. by rewrite decide_True.
      * destruct (Hin r Hr) as [Hn (v & Hv & Hw)].
        rewrite world_put in Hn. case_decide; [discriminate|].
        split; [exact Hn|]. eauto.
Qed.

Lemma checked_ids ctx chunkId chunkDataBase64 policyId l checked :
  Forall2 (fun i a =>
             batchEntry ctx chunkId chunkDataBase64 policyId i l = (Ok a, l))
          (seq 0 (length chunkId)) checked ->
  map ChunkId checked = chunkId.
Proof.
  intros Hf. apply list_eq. intros i. rewrite list_lookup_fmap.
  destruct (decide (i < length chunkId)%nat) as [Hi|Hi].
  - destruct (Forall2_lookup_l _ _ _ i i Hf) as (a & Ha & He).
    { by apply lookup_seq_lt. }
    rewrite Ha. cbn.
    apply batchEntry_ok in He as (_ & id & enc & pid & d & h & p & Hid & _ & _ & _ & _ & _ & _ & ->).
    by rewrite Hid.
  - rewrite (lookup_ge_None_2 chunkId) by lia.
    rewrite (lookup_ge_None_2 checked); [reflexivity|].
    rewrite <- (Forall2_length _ _ _ Hf), length_seq. lia.
Qed.


(** A write of the second loop never removes a live key. *)
Lemma batchCreate_keeps ctx newAssets : forall l k,
  world l !! k <> None -> world (batchCreate ctx newAssets l).2 !! k <> None.
Proof.
  induction newAssets as [|a rest IH]; intros l k Hk; [exact Hk|].
  cbn [batchCreate]. unfold bind, wrapping. rewrite createAsset_run.
  destruct (bool_decide (world l !! ChunkId a <> None)); [exact Hk|].
  destruct (json_Marshal_Asset a) as [b|]; [|exact Hk]. cbn [wrap_result].
  apply IH. rewrite world_put. by case_decide.
Qed.

Lemma batchCreate_failure ctx newAssets : forall l,
  (forall a, a ∈ newAssets -> is_Some (json_Marshal_Asset a)) ->
  match (batchCreate ctx newAssets l).1 with
  | Ok _ => True
  | Err e => exists id, id ∈ map ChunkId newAssets
                        /\ e = Wrapped "failed to put asset to world state"
                                 (AlreadyExists id)
  end.
Proof.
  induction newAssets as [|a rest IH]; intros l Hm; [done|].
  cbn [batchCreate]. unfold bind, wrapping. rewrite createAsset_run.
  destruct (bool_decide (world l !! ChunkId a <> None)).
  { cbn. exists (ChunkId a). split; [left|reflexivity]. }
  destruct (Hm a) as [b Hb]; [left|]. rewrite Hb. cbn [wrap_result].
  specialize (IH (put ctx (ChunkId a) b l)).
  destruct (batchCreate ctx rest _).1; [done|].
  destruct IH as (id & Hid & ->).
  { intros r Hr. apply Hm. by right. }
  exists id. split; [by right | reflexivity].
Qed.

(** X11. The batch is not all-or-nothing once the checks have passed. When
    every entry passes its checks and can be serialised but an id occurs
    twice, the call fails with [AlreadyExists] for one of the named ids
    during the write pass, and the asset of the first entry has already
    been written: its id, not live before, is live in the ledger that is
    left. *)
Theorem X11_batch_duplicate_ids_partial_write ctx l chunkId chunkDataBase64 policyId :
  length chunkId = length chunkDataBase64 ->
  length chunkId = length policyId ->
  (forall i, (i < length chunkId)%nat ->
     exists a, batchEntry ctx chunkId chunkDataBase64 policyId i l = (Ok a, l)
               /\ is_Some (json_Marshal_Asset a)) ->
  ~ NoDup chunkId ->
  (exists id, id ∈ chunkId
     /\ (AddChunkWithPolicyBatch ctx chunkId chunkDataBase64 policyId l).1
        = Err (Wrapped "failed to put asset to world state" (AlreadyExists id)))
  /\ (exists id0, chunkId !! 0%nat = Some id0
        /\ world l !! id0 = None
        /\ world (AddChunkWithPolicyBatch ctx chunkId chunkDataBase64 policyId l).2
             !! id0 <> None).
Proof.
  intros Hl1 Hl2 Hvalid Hdup. unfold AddChunkWithPolicyBatch.
  rewrite !bool_decide_false by (intros Hc; by apply Hc). cbn [orb]. unfold bind.
  destruct (batchCheck _ _ _ _ _ _ l) as [[assets|e] l1] eqn:Ec.
  2:{ exfalso.
      assert (Hchk : forall indices newAssets,
                (forall i, i ∈ indices -> (i < length chunkId)%nat) ->
                is_Err (batchCheck ctx chunkId chunkDataBase64 policyId newAssets
                          indices l).1 = false).
      { induction indices as [|i rest IH]; intros acc Hi; [reflexivity|].
        cbn [batchCheck]. unfold bind.
        destruct (Hvalid i) as (a & -> & _); [apply Hi; left|].
        apply IH. intros j Hj. apply Hi. by right. }
      specialize (Hchk (seq 0 (length chunkId)) []). rewrite Ec in Hchk.
      cbn in Hchk. discriminate Hchk.
      intros i Hi%list_elem_of_In%in_seq. lia. }
  apply batchCheck_ok in Ec as (-> & checked & -> & Hf). cbn [app].
  pose proof (checked_ids _ _ _ _ _ _ Hf) as Hids.
  assert (Hm : forall a, a ∈ checked -> is_Some (json_Marshal_Asset a)).
  { intros a (i & Ha)%list_elem_of_lookup.
    destruct (Forall2_lookup_r _ _ _ i a Hf Ha) as (j & Hj & He).
    apply lookup_seq in Hj as [-> Hlt].
    destruct (Hvalid i Hlt) as (a' & He' & Hs).
    cbn [Nat.add] in He. rewrite He in He'. by injection He' as <-. }
  split.
  - pose proof (batchCreate_failure ctx checked l Hm) as Hfail.
    destruct (batchCreate ctx checked l) as [[[]|e] l'] eqn:Eb; cbn [fst] in *.
    + apply batchCreate_ok in Eb as [Hnd _]. rewrite Hids in Hnd. by destruct Hdup.
    + destruct Hfail as (id & Hid & ->). rewrite Hids in Hid. eauto.
  - destruct chunkId as [|id0 ids] eqn:Eids.
    { destruct Hdup. constructor. }
    exists id0. split; [reflexivity|].
    destruct checked as [|a0 rest]; [discriminate|].
    injection Hids as Hid0 Hrest.
    apply Forall2_cons_1 in Hf as [He0 _].
    apply batchEntry_ok in He0
      as (_ & id' & enc & pid & d & h & p & Hid' & _ & _ & Hfree & _ & _ & _ & ->).
    cbn in Hid'. injection Hid' as <-. split; [exact Hfree|].
    cbn [batchCreate]. unfold bind, wrapping. rewrite createAsset_run.
    cbn [ChunkId]. rewrite bool_decide_false by (intros Hc; by apply Hc).
    destruct (Hm (mkAsset pid id0 h zeroTime p)) as [b Hb]; [left|].
    rewrite Hb. cbn [wrap_result].
    apply batchCreate_keeps. rewrite world_put. by rewrite decide_True.
Qed.
End BatchOutcomes.


Lemma X11_witness :
  exists id,
    (@AddChunkWithPolicyBatch Demo.lib (Demo.tx "tx1" 0) ["a"; "a"]
       [Demo.enc_c1; Demo.enc_c2] [Demo.energy_id; Demo.energy_id] emptyLedger).1
    = Err (Wrapped "failed to put asset to world state" (AlreadyExists id)).
Proof.
  destruct (proj1 (@X11_batch_duplicate_ids_partial_write Demo.lib (Demo.tx "tx1" 0)
                     emptyLedger ["a"; "a"] [Demo.enc_c1; Demo.enc_c2]
                     [Demo.energy_id; Demo.energy_id] eq_refl eq_refl
                     ltac:(intros [|[|i]] Hi;
                           [eexists; split; [reflexivity | eexists; reflexivity] ..
                           | cbn in Hi; lia])
                     ltac:(intros [Hn _]%NoDup_cons; apply Hn; left)))
    as (id & _ & He).
  exists id. exact He.
Defined.

(* ===================================================================== *)
(** ** Further properties: the range scans *)
(* ===================================================================== *)

Section ScanFacts.
Context `{GoLib}.

Lemma GetAllAssets_run l : GetAllAssets l = (GetAllAssets_loop [] (scan_all l), l).
Proof. reflexivity. Qed.

Lemma GetExpiredChunks_run ctx expiryDateRFC3339 l :
  GetExpiredChunks ctx expiryDateRFC3339 l
  = match time_Parse_RFC3339 expiryDateRFC3339 with
    | None => (Err ParseError, l)
    | Some givenExpiryTime =>
        if Time_After givenExpiryTime (tx_Now ctx) then (Err FutureDateRejected, l)
        else (GetExpiredChunks_loop givenExpiryTime [] (scan_all l), l)
    end.
Proof.
  unfold GetExpiredChunks.
  destruct (time_Parse_RFC3339 expiryDateRFC3339) as [t|]; [|reflexivity].
  by destruct (Time_After t (tx_Now ctx)).
Qed.


Lemma GetAllAssets_loop_ok resultsIterator : forall assets result,
  GetAllAssets_loop assets resultsIterator = Ok result ->
  exists decoded, decodes resultsIterator decoded /\ result = assets ++ decoded.
Proof.
  induction resultsIterator as [|queryResponse rest IH]; intros assets result.
  - intros [= <-]. exists []. split; [constructor | by rewrite app_nil_r].
  - cbn [GetAllAssets_loop].
    destruct (json_Unmarshal_Asset queryResponse.2) as [asset|] eqn:Hq;
      [|discriminate].
    cbn [of_option]. intros (decoded & Hd & ->)%IH.
    exists (asset :: decoded). split; [by constructor | by rewrite <- app_assoc].
Qed.

(** Both scans stop with [DecodeError] at a record that does not decode;
    nothing makes them stop before it. *)
Lemma scans_fail_on_undecodable givenExpiryTime resultsIterator queryResponse :
  queryResponse ∈ resultsIterator ->
  json_Unmarshal_Asset queryResponse.2 = None ->
  forall assets,
    (exists e, GetAllAssets_loop assets resultsIterator = Err e)
    /\ exists e, GetExpiredChunks_loop givenExpiryTime assets resultsIterator = Err e.
Proof.
  intros Hin Hq. induction resultsIterator as [|r rest IH]; intros assets.
  { by apply elem_of_nil in Hin. }
  cbn [GetAllAssets_loop GetExpiredChunks_loop].
  apply elem_of_cons in Hin as [<- | Hin].
  { rewrite Hq. cbn. eauto. }
  destruct (json_Unmarshal_Asset r.2) as [asset|]; cbn [of_option]; [|eauto].
  change (0 + 1 =? 30) with false. cbn iota.
  split; [apply IH, Hin|].
  destruct (bool_decide _ && Time_Before _ _); apply IH, Hin.
Qed.

Lemma scan_all_lookup l key value :
  (key, value) ∈ scan_all l <-> world l !! key = Some value.
Proof.
  unfold scan_all. rewrite merge_sort_Permutation. apply elem_of_map_to_list.
Qed.

Lemma decodes_reads l records assets :
  (forall kv, kv ∈ records -> world l !! kv.1 = Some kv.2) ->
  decodes records assets ->
  Forall2 (fun key a => read_result l key = Ok a) records.*1 assets.
Proof.
  intros Hw Hd. induction Hd as [|kv a rest tail Hq _ IH]; [constructor|].
  rewrite fmap_cons. constructor.
  - unfold read_result. rewrite (Hw kv) by left. by rewrite Hq.
  - apply IH. intros kv' Hin. apply Hw. by right.
Qed.

(** X12. [GetExpiredChunks] fails with [ParseError] when the cutoff does
    not parse and with [FutureDateRejected] when it is after the peer's
    clock; a cutoff equal to the clock reading is accepted. It never writes
    to the ledger. *)
Theorem X12_GetExpiredChunks_rejects ctx expiryDateRFC3339 l :
  (GetExpiredChunks ctx expiryDateRFC3339 l).2 = l
  /\ (time_Parse_RFC3339 expiryDateRFC3339 = None ->
      (GetExpiredChunks ctx expiryDateRFC3339 l).1 = Err ParseError)
  /\ (forall givenExpiryTime,
        time_Parse_RFC3339 expiryDateRFC3339 = Some givenExpiryTime ->
        (Time_After givenExpiryTime (tx_Now ctx) = true ->
         (GetExpiredChunks ctx expiryDateRFC3339 l).1 = Err FutureDateRejected)
        /\ (givenExpiryTime = tx_Now ctx ->
            failure (GetExpiredChunks ctx expiryDateRFC3339 l).1
            <> Some FutureDateRejected
            /\ failure (GetExpiredChunks ctx expiryDateRFC3339 l).1
               <> Some ParseError)).
Proof.
  rewrite GetExpiredChunks_run. split; [|split].
  - destruct (time_Parse_RFC3339 _) as [t|]; [|reflexivity].
    by destruct (Time_After t _).
  - by intros ->.
  - intros t ->. split.
    + by intros ->.
    + intros ->. rewrite Time_After_irrefl. cbn [fst].
      destruct (GetExpiredChunks_loop _ _ _) as [r|e] eqn:El; [by split|].
      assert (e = DecodeError) as ->; [|by split].
      revert El. generalize (@nil Asset).
      induction (scan_all l) as [|r rest IH]; intros acc; cbn; [discriminate|].
      destruct (json_Unmarshal_Asset r.2); cbn; [|congruence].
      destruct (bool_decide _ && Time_Before _ _); apply IH.
Qed.

(** X13. When every live record decodes, [GetExpiredChunks] returns exactly
    the assets of [GetAllAssets] whose expiry date is set and strictly
    before the cutoff, in the same order and however many they are; so an
    asset whose expiry date is unset, or is at or after the cutoff, is
    never returned. *)
Theorem X13_GetExpiredChunks_filters_GetAllAssets ctx expiryDateRFC3339 l
    assets givenExpiryTime :
  (GetAllAssets l).1 = Ok assets ->
  time_Parse_RFC3339 expiryDateRFC3339 = Some givenExpiryTime ->
  Time_After givenExpiryTime (tx_Now ctx) = false ->
  GetExpiredChunks ctx expiryDateRFC3339 l
  = (Ok (filter (fun a => expired_before givenExpiryTime a) assets), l)
  /\ forall a, a ∈ filter (fun a => expired_before givenExpiryTime a) assets ->
       a ∈ assets
       /\ ExpiryDate a <> zeroTime
       /\ Time_Before (ExpiryDate a) givenExpiryTime = true.
Proof.
  rewrite GetAllAssets_run. cbn [fst].
  intros (decoded & Hd & ->)%GetAllAssets_loop_ok Hp Hf. cbn [app]. split.
  - rewrite GetExpiredChunks_run, Hp, Hf.
    by rewrite (GetExpiredChunks_loop_all _ _ _ Hd).
  - intros a [Hex Ha]%list_elem_of_filter. split; [exact Ha|].
    unfold expired_before in Hex.
    apply Is_true_true, andb_true_iff in Hex as [Hz Hb].
    split; [by apply bool_decide_eq_true in Hz | exact Hb].
Qed.

(** X14. When [GetAllAssets] succeeds it returns one asset per live key,
    in ascending key order: the asset at each position is the one
    [readAsset] returns for the key at that position, every live key
    occurs once, and there are as many assets as live keys. It never
    writes to the ledger. *)
Theorem X14_GetAllAssets_one_asset_per_live_key l assets :
  (GetAllAssets l).1 = Ok assets ->
  (GetAllAssets l).2 = l
  /\ length assets = size (world l)
  /\ exists keys,
       Forall2 (fun key a => (readAsset key l).1 = Ok a) keys assets
       /\ NoDup keys
       /\ (forall key, key ∈ keys <-> world l !! key <> None)
       /\ Sorted (fun k1 k2 : string => String.leb k1 k2) keys.
Proof.
  rewrite GetAllAssets_run. cbn [fst snd].
  intros (decoded & Hd & ->)%GetAllAssets_loop_ok. cbn [app].
  split; [reflexivity|]. split.
  - rewrite <- (Forall2_length _ _ _ Hd). unfold scan_all.
    rewrite merge_sort_Permutation. apply length_map_to_list.
  - exists (scan_all l).*1. split; [|split; [|split]].
    + eapply Forall2_impl.
      * apply decodes_reads; [|exact Hd].
        intros [k v] Hin. by apply scan_all_lookup.
      * intros k a Hr. by rewrite readAsset_run.
    + unfold scan_all. rewrite merge_sort_Permutation.
      apply NoDup_fst_map_to_list.
    + intros key. rewrite list_elem_of_fmap. split.
      * intros ([k v] & -> & Hin). apply scan_all_lookup in Hin.
        cbn. congruence.
      * intros Hl. destruct (world l !! key) as [v|] eqn:Hv; [|done].
        exists (key, v). split; [reflexivity | by apply scan_all_lookup].
    + apply (Sorted_fmap fst key_le).
      * intros [k1 v1] [k2 v2] Hle. exact Hle.
      * apply Sorted_merge_sort. intros [k1 v1] [k2 v2]. unfold key_le. cbn.
        destruct (String.leb_total k1 k2) as [-> | ->]; [by left | by right].
Qed.

(** X15. One live record that does not decode makes both scans fail:
    [GetAllAssets] fails, and so does [GetExpiredChunks] for every cutoff
    that parses and is not in the future, whatever the other records
    are. *)
Theorem X15_scans_fail_on_undecodable_record ctx l key value :
  world l !! key = Some value ->
  json_Unmarshal_Asset value = None ->
  is_Err (GetAllAssets l).1 = true
  /\ forall expiryDateRFC3339 givenExpiryTime,
       time_Parse_RFC3339 expiryDateRFC3339 = Some givenExpiryTime ->
       Time_After givenExpiryTime (tx_Now ctx) = false ->
       is_Err (GetExpiredChunks ctx expiryDateRFC3339 l).1 = true.
Proof.
  intros Hw Hq. apply scan_all_lookup in Hw. split.
  - rewrite GetAllAssets_run. cbn [fst].
    destruct (scans_fail_on_undecodable zeroTime _ _ Hw Hq []) as [[e ->] _].
    reflexivity.
  - intros s t Hp Hf. rewrite GetExpiredChunks_run, Hp, Hf. cbn [fst].
    destruct (scans_fail_on_undecodable t _ _ Hw Hq []) as [_ [e ->]].
    reflexivity.
Qed.
End ScanFacts.

Lemma X12_witness :
  (@GetExpiredChunks Demo.lib (Demo.tx "q" 0) "yesterday" Demo.ledger2).1
  = Err ParseError
  /\ (@GetExpiredChunks Demo.lib (Demo.tx "q" 0) "2014-11-12T11:45:26.371Z"
        Demo.ledger2).1 = Err FutureDateRejected.
Proof.
  split.
  - exact (proj1 (proj2 (@X12_GetExpiredChunks_rejects Demo.lib (Demo.tx "q" 0)
                           "yesterday" Demo.ledger2)) eq_refl).
  - exact (proj1 (proj2 (proj2 (@X12_GetExpiredChunks_rejects Demo.lib
                                  (Demo.tx "q" 0) "2014-11-12T11:45:26.371Z"
                                  Demo.ledger2)) Demo.t_cutoff eq_refl) eq_refl).
Defined.

Lemma X13_witness :
  let assets := match (@GetAllAssets Demo.lib Scenario.pair).1 with
                | Ok assets => assets
                | Err _ => []
                end in
  @GetExpiredChunks Demo.lib (Demo.tx "q" 5000) "2014-11-12T11:45:26.371Z"
    Scenario.pair
  = (Ok (filter (fun a => expired_before Demo.t_cutoff a) assets), Scenario.pair)
  /\ map ChunkId assets = ["a"; "b"]
  /\ map ChunkId (filter (fun a => expired_before Demo.t_cutoff a) assets) = ["a"].
Proof.
  intros assets. split; [|split; reflexivity].
  exact (proj1 (@X13_GetExpiredChunks_filters_GetAllAssets Demo.lib
                  (Demo.tx "q" 5000) "2014-11-12T11:45:26.371Z" Scenario.pair
                  assets Demo.t_cutoff eq_refl eq_refl eq_refl)).
Defined.

Lemma X14_witness :
  exists assets,
    (@GetAllAssets Demo.lib Scenario.pair).1 = Ok assets
    /\ length assets = size (@world Demo.lib Scenario.pair).
Proof.
  eexists. split; [reflexivity|].
  exact (proj1 (proj2 (@X14_GetAllAssets_one_asset_per_live_key Demo.lib
                         Scenario.pair _ eq_refl))).
Defined.

Lemma X15_witness :
  is_Err (@GetAllAssets Scenario.text_lib Scenario.garbled).1 = true.
Proof.
  exact (proj1 (@X15_scans_fail_on_undecodable_record Scenario.text_lib
                  (Demo.tx "q" 0) Scenario.garbled "a" "bad" eq_refl eq_refl)).
Defined.

(* ===================================================================== *)
(** ** Further properties: histories *)
(* ===================================================================== *)

Section HistoryFacts.
Context `{GoLib}.

Lemma ChunkExisted_run chunkId l :
  ChunkExisted chunkId l
  = (match getAssetHistory_loop chunkId [] (history_of l chunkId) with
     | Err err => Err err
     | Ok [] => Ok false
     | Ok (_ :: _) => Ok true
     end, l).
Proof.
  unfold ChunkExisted, bind. rewrite getAssetHistory_run.
  by destruct (getAssetHistory_loop chunkId [] (history_of l chunkId)) as [[|h0 h]|e].
Qed.

(** X16. [ChunkExisted] never writes; it reports false exactly when the key
    has no history, and true when there is a history and it can be read.
    So it does not report false for a key that has just been written or
    deleted, although [assetExists] reports false after the deletion. *)
Theorem X16_ChunkExisted_reads_the_history chunkId l :
  (ChunkExisted chunkId l).2 = l
  /\ ((ChunkExisted chunkId l).1 = Ok false <-> history_of l chunkId = [])
  /\ (forall h, (getAssetHistory chunkId l).1 = Ok h -> history_of l chunkId <> [] ->
        (ChunkExisted chunkId l).1 = Ok true)
  /\ (forall ctx value,
        (ChunkExisted chunkId (put ctx chunkId value l)).1 <> Ok false)
  /\ (forall ctx,
        (ChunkExisted chunkId (del ctx chunkId l)).1 <> Ok false
        /\ (assetExists chunkId (del ctx chunkId l)).1 = Ok false).
Proof.
  assert (Hiff : forall l0, (ChunkExisted chunkId l0).1 = Ok false
                            <-> history_of l0 chunkId = []).
  { intros l0. rewrite ChunkExisted_run. cbn [fst]. split.
    - destruct (getAssetHistory_loop chunkId [] (history_of l0 chunkId))
        as [[|h0 h]|e] eqn:E; try discriminate.
      intros _. by apply getAssetHistory_loop_nil in E.
    - by intros ->. }
  split; [by rewrite ChunkExisted_run|]. split; [apply Hiff|].
  split; [|split].
  - intros h. rewrite getAssetHistory_run, ChunkExisted_run. cbn [fst].
    intros Hh Hne. rewrite Hh. destruct h as [|h0 h]; [|reflexivity].
    by apply getAssetHistory_loop_nil in Hh.
  - intros ctx value Hf. apply Hiff in Hf. rewrite history_of_put in Hf.
    by destruct (history_of l chunkId).
  - intros ctx. split.
    + intros Hf. apply Hiff in Hf. rewrite history_of_del in Hf.
      by destruct (history_of l chunkId).
    + rewrite assetExists_run. cbn [fst]. f_equal.
      apply bool_decide_false. intros Hc. apply Hc.
      rewrite world_del. by rewrite decide_True.
Qed.

(** Every transaction is a sequence of writes. *)
Lemma createAsset_writes ctx a l : rtc write_step l (createAsset ctx a l).2.
Proof.
  rewrite createAsset_run. destruct (bool_decide _); [done|].
  destruct (json_Marshal_Asset a) eqn:Hm; [|done].
  apply rtc_once. by econstructor.
Qed.

Lemma updateAsset_writes ctx id a l : rtc write_step l (updateAsset ctx id a l).2.
Proof.
  rewrite updateAsset_run. destruct (bool_decide _); [done|].
  destruct (read_result l id); [|done].
  destruct (json_Marshal_Asset a) eqn:Hm; [|done].
  apply rtc_once. by econstructor.
Qed.

Lemma batchCreate_writes ctx newAssets : forall l,
  rtc write_step l (batchCreate ctx newAssets l).2.
Proof.
  induction newAssets as [|a rest IH]; intros l; [done|].
  cbn [batchCreate]. unfold bind, wrapping.
  pose proof (createAsset_writes ctx a l) as Hw.
  destruct (createAsset ctx a l) as [[[]|e] l1]; cbn [wrap_result snd] in *;
    [|exact Hw].
  etrans; [exact Hw | apply IH].
Qed.

Lemma commit_writes ctx tx l : rtc write_step l (commit ctx tx l).
Proof.
  destruct tx as [id enc|id enc pid|ids encs pids|id enc pid|id|s|id| |id|id];
    cbn [commit].
  - rewrite AddChunk_run. destruct (bool_decide _); [done|].
    destruct (base64DecodeJson enc); [|done]. destruct (hash _); [|done].
    apply createAsset_writes.
  - rewrite AddChunkWithPolicy_run. destruct (bool_decide _); [done|].
    destruct (base64DecodeJson enc); [|done]. destruct (hash _); [|done].
    destruct (applyPolicyById _ _ _); [|done]. apply createAsset_writes.
  - unfold AddChunkWithPolicyBatch. destruct (_ || _); [done|]. unfold bind.
    pose proof (batchCheck_ledger ctx ids encs pids (seq 0 (length ids)) [] l) as E.
    destruct (batchCheck _ _ _ _ _ _ l) as [[assets|e] l1]; cbn [snd] in *; subst l1;
      [apply batchCreate_writes | done].
  - rewrite ApplyPolicy_run. destruct (read_result l id); [|done].
    destruct (base64DecodeJson enc); [|done]. destruct (hash _); [|done].
    destruct (bool_decide _); [done|]. destruct (applyPolicyById _ _ _); [|done].
    destruct (creation_result l id); [|done]. apply updateAsset_writes.
  - rewrite UpdateChunkExpiryDate_run. destruct (read_result l id); [|done].
    destruct (_ || _); [done|]. destruct (creation_result l id); [|done].
    destruct (bool_decide _); [done|]. apply updateAsset_writes.
  - by rewrite GetExpiredChunks_run; repeat case_match.
  - rewrite DeleteChunkIfExpired_run. destruct (read_result l id); [|done].
    repeat (destruct (bool_decide _); [done|]).
    destruct (Time_After _ _); [done|]. apply rtc_once. constructor.
  - done.
  - by rewrite ChunkExisted_run.
  - unfold ReadChunk. by rewrite readAsset_run.
Qed.

Lemma write_step_history l l' key :
  write_step l l' -> history_of l key `prefix_of` history_of l' key.
Proof.
  intros [ctx k a value l0 Hm | ctx k l0].
  - destruct (decide (k = key)) as [-> | Hne].
    + rewrite history_of_put. by apply prefix_app_r.
    + by rewrite history_of_put_ne.
  - destruct (decide (k = key)) as [-> | Hne].
    + rewrite history_of_del. by apply prefix_app_r.
    + by rewrite history_of_del_ne.
Qed.

Lemma write_step_creation l l' id t :
  json_Asset_roundtrip ->
  write_step l l' -> creation_result l id = Ok t -> creation_result l' id = Ok t.
Proof.
  intros Hrt [ctx k a value l0 Hm | ctx k l0] Hc.
  - destruct (decide (k = id)) as [-> | Hne].
    + by eapply creation_result_put.
    + unfold creation_result in *. by rewrite history_of_put_ne.
  - destruct (decide (k = id)) as [-> | Hne].
    + unfold creation_result in *. rewrite history_of_del, getAssetHistory_loop_app.
      destruct (getAssetHistory_loop id [] (history_of l0 id)) as [[|h0 h]|e];
        try discriminate. exact Hc.
    + unfold creation_result in *. by rewrite history_of_del_ne.
Qed.

(** X17. No transaction rewrites history: after any sequence of public
    transactions the history a key had is a prefix of the history it has.
    Hence the creation time of a key, once [getAssetCreationTime] returns
    it, is returned unchanged after any sequence of transactions, whether
    they update, delete or re-create the chunk. *)
Theorem X17_creation_time_is_stable txs l id :
  history_of l id `prefix_of` history_of (replay txs l) id
  /\ (json_Asset_roundtrip ->
      forall t, (getAssetCreationTime id l).1 = Ok t ->
                (getAssetCreationTime id (replay txs l)).1 = Ok t).
Proof.
  assert (Hw : rtc write_step l (replay txs l)).
  { revert l. induction txs as [|[ctx tx] rest IH]; intros l; [done|].
    cbn. etrans; [apply commit_writes | apply IH]. }
  split.
  - induction Hw as [|l0 l1 l2 Hs _ IH]; [done|].
    etrans; [by apply write_step_history | exact IH].
  - intros Hrt t. rewrite !getAssetCreationTime_run. cbn [fst].
    induction Hw as [|l0 l1 l2 Hs _ IH]; [done|].
    intros Hc. apply IH. by eapply write_step_creation.
Qed.
End HistoryFacts.

Lemma X16_witness :
  (@ChunkExisted Demo.lib "a" Demo.ledger3).1 = Ok true
  /\ (@assetExists Demo.lib "a" Demo.ledger3).1 = Ok false.
Proof.
  split; [|reflexivity].
  refine (proj1 (proj2 (proj2 (@X16_ChunkExisted_reads_the_history Demo.lib "a"
                                 Demo.ledger3))) _ _ _).
  - reflexivity.
  - discriminate.
Defined.

Lemma X17_witness :
  (@getAssetCreationTime Demo.lib "a" Scenario.recreated).1 = Ok (Demo.at_second 0).
Proof.
  exact (proj2 (@X17_creation_time_is_stable Demo.lib
                  [(Demo.tx "tx2" 10, TxUpdateChunkExpiryDate "a");
                   (Demo.tx "tx3" 40, TxDeleteChunkIfExpired "a");
                   (Demo.tx "tx4" 50,
                    TxAddChunkWithPolicy "a" Demo.enc_c2 Demo.energy_id)]
                  Demo.ledger1 "a")
           Demo_roundtrip (Demo.at_second 0) eq_refl).
Defined.

(* ===================================================================== *)
(** ** Further properties: what every stored asset looks like *)
(* ===================================================================== *)

Section InvariantFacts.
Context `{GoLib}.











End InvariantFacts.



(* ===================================================================== *)
(** ** Further properties: how the transactions compose *)
(* ===================================================================== *)

Section CompositionFacts.
Context `{GoLib}.

Lemma guard_passes pid p :
  registered pid -> policy_duration p ->
  bool_decide (pid = "") || (p =? 0) = false.
Proof.
  intros Hreg%registered_nonempty Hdur%policy_duration_positive.
  rewrite bool_decide_false by done. cbn [orb]. apply Z.eqb_neq. lia.
Qed.

(** X20. An applied policy makes the expiry date up to date: when
    [ApplyPolicy] succeeds, the asset it leaves under the key has the given
    policy id, the period the policy returned, and as expiry date the
    creation time of the key plus that period, its [ChunkId] and [DataHash]
    being those it had; and an [UpdateChunkExpiryDate] that follows fails
    with [NoChange] and writes nothing. *)
Theorem X20_ApplyPolicy_then_UpdateChunkExpiryDate ctx l chunkId chunkDataBase64
    policyId l1 :
  json_Asset_roundtrip ->
  ApplyPolicy ctx chunkId chunkDataBase64 policyId l = (Ok tt, l1) ->
  exists asset creationTime period,
    (readAsset chunkId l).1 = Ok asset
    /\ (getAssetCreationTime chunkId l).1 = Ok creationTime
    /\ registered policyId /\ policy_duration period
    /\ readAsset chunkId l1
       = (Ok (mkAsset policyId (ChunkId asset) (DataHash asset)
                (Time_Add creationTime period) period), l1)
    /\ forall ctx2,
         UpdateChunkExpiryDate ctx2 chunkId l1
         = (Err (Wrapped "error updating chunk expiry time" NoChange), l1).
Proof.
  intros Hrt. rewrite ApplyPolicy_run.
  destruct (read_result l chunkId) as [asset|] eqn:Hr; [|discriminate].
  destruct (base64DecodeJson chunkDataBase64) as [d|]; [|discriminate].
  destruct (hash d) as [h|]; [|discriminate].
  destruct (bool_decide (DataHash asset <> h)); [discriminate|].
  destruct (applyPolicyById (tx_Now ctx) d policyId) as [p|] eqn:Hp; [|discriminate].
  destruct (creation_result l chunkId) as [t|] eqn:Ec; [|discriminate].
  rewrite updateAsset_run, Hr. destruct (bool_decide (ChunkId _ <> chunkId));
    [discriminate|].
  destruct (json_Marshal_Asset _) as [b|] eqn:Hm; [|discriminate].
  intros [= <-].
  pose proof (applyPolicyById_cases (tx_Now ctx) d policyId) as Hc.
  rewrite Hp in Hc. destruct Hc as [Hreg Hdur].
  pose proof (read_result_put ctx chunkId _ b l Hrt Hm) as Hr1.
  exists asset, t, p. rewrite !readAsset_run, getAssetCreationTime_run, Hr1.
  repeat split; try done.
  intros ctx2. rewrite UpdateChunkExpiryDate_run, Hr1.
  cbn [AppliedPolicyId ExpiryPeriod ExpiryDate].
  rewrite (guard_passes _ _ Hreg Hdur).
  rewrite (creation_result_put _ _ _ _ _ _ Hrt Hm Ec).
  by rewrite bool_decide_true.
Qed.

(** The creation time of a key once it has been written in [ctx]: the
    timestamp of the first entry of the history it already had, or of
    [ctx] when it had none. *)
Lemma creation_result_after_put ctx id a value l h :
  json_Asset_roundtrip -> json_Marshal_Asset a = Some value ->
  getAssetHistory_loop id [] (history_of l id) = Ok h ->
  creation_result (put ctx id value l) id
  = Ok match history_of l id with
       | [] => tx_Timestamp ctx
       | e :: _ => km_Timestamp e
       end.
Proof.
  intros Hrt Hm Hh. unfold creation_result.
  rewrite history_of_put, getAssetHistory_loop_app, Hh. cbn.
  rewrite (Hrt _ _ Hm). cbn.
  destruct (history_of l id) as [|e rest] eqn:Ehist.
  - cbn in Hh. by injection Hh as <-.
  - apply getAssetHistory_loop_timestamps in Hh as (tail & -> & Ht).
    destruct tail as [|h0 tail]; [discriminate|]. cbn in *. congruence.
Qed.

(** X21. The expiry date counts from the first transaction the key ever
    had. After a successful [AddChunkWithPolicy] on a key whose earlier
    history can be read, the creation time of the key is the timestamp of
    that transaction when the key had no history, and otherwise the
    timestamp of the first entry of the history it had (so for a chunk
    created again after a deletion, that of its first creation). A later
    [UpdateChunkExpiryDate] does not fail with [PolicyNotApplied], and when
    it succeeds it stores that creation time plus the period the policy
    gave, changing no other field. *)
Theorem X21_expiry_counts_from_the_first_transaction ctx l chunkId
    chunkDataBase64 policyId l1 h :
  json_Asset_roundtrip ->
  AddChunkWithPolicy ctx chunkId chunkDataBase64 policyId l = (Ok tt, l1) ->
  (getAssetHistory chunkId l).1 = Ok h ->
  let creationTime := match history_of l chunkId with
                      | [] => tx_Timestamp ctx
                      | e :: _ => km_Timestamp e
                      end in
  exists asset1,
    readAsset chunkId l1 = (Ok asset1, l1)
    /\ AppliedPolicyId asset1 = policyId
    /\ ExpiryDate asset1 = zeroTime
    /\ policy_duration (ExpiryPeriod asset1)
    /\ (getAssetCreationTime chunkId l1).1 = Ok creationTime
    /\ forall ctx2,
         failure (UpdateChunkExpiryDate ctx2 chunkId l1).1 <> Some PolicyNotApplied
         /\ forall l2,
              UpdateChunkExpiryDate ctx2 chunkId l1 = (Ok tt, l2) ->
              readAsset chunkId l2
              = (Ok (set_ExpiryDate asset1
                       (Time_Add creationTime (ExpiryPeriod asset1))), l2).
Proof.
  intros Hrt. rewrite AddChunkWithPolicy_run, getAssetHistory_run. cbn [fst].
  destruct (bool_decide (world l !! chunkId <> None)); [discriminate|].
  destruct (base64DecodeJson chunkDataBase64) as [d|]; [|discriminate].
  destruct (hash d) as [dh|]; [|discriminate].
  destruct (applyPolicyById (tx_Now ctx) d policyId) as [p|] eqn:Hp; [|discriminate].
  rewrite createAsset_run. cbn [ChunkId].
  destruct (bool_decide (world l !! chunkId <> None)); [discriminate|].
  destruct (json_Marshal_Asset _) as [b|] eqn:Hm; [|discriminate].
  intros [= <-] Hh.
  pose proof (applyPolicyById_cases (tx_Now ctx) d policyId) as Hc.
  rewrite Hp in Hc. destruct Hc as [Hreg Hdur].
  pose proof (read_result_put ctx chunkId _ b l Hrt Hm) as Hr1.
  pose proof (creation_result_after_put ctx chunkId _ b l h Hrt Hm Hh) as Hc1.
  eexists. rewrite readAsset_run, getAssetCreationTime_run, Hr1, Hc1.
  split; [reflexivity|]. repeat split; try done.
  - rewrite UpdateChunkExpiryDate_run, Hr1.
    cbn [AppliedPolicyId ExpiryPeriod ExpiryDate].
    rewrite (guard_passes _ _ Hreg Hdur), Hc1.
    destruct (bool_decide (Time_Add _ _ = _)); [cbn; discriminate|].
    rewrite updateAsset_run, Hr1.
    destruct (bool_decide (ChunkId _ <> chunkId)); [cbn; discriminate|].
    destruct (json_Marshal_Asset (set_ExpiryDate _ _)); cbn; discriminate.
  - intros l2. rewrite UpdateChunkExpiryDate_run, Hr1.
    cbn [AppliedPolicyId ExpiryPeriod ExpiryDate].
    rewrite (guard_passes _ _ Hreg Hdur), Hc1.
    destruct (bool_decide (Time_Add _ _ = _)); [discriminate|].
    rewrite updateAsset_run, Hr1.
    destruct (bool_decide (ChunkId _ <> chunkId)); [discriminate|].
    destruct (json_Marshal_Asset (set_ExpiryDate _ _)) as [b2|] eqn:Hm2;
      [|discriminate].
    intros [= <-]. rewrite readAsset_run.
    by rewrite (read_result_put _ _ _ _ _ Hrt Hm2).
Qed.
End CompositionFacts.

Lemma X20_witness :
  @UpdateChunkExpiryDate Demo.lib (Demo.tx "tx3" 20) "a"
    (@ApplyPolicy Demo.lib (Demo.tx "tx2" 10) "a" Demo.enc_c1 "example_policy_v1"
       Demo.ledger1).2
  = (Err (Wrapped "error updating chunk expiry time" NoChange),
     (@ApplyPolicy Demo.lib (Demo.tx "tx2" 10) "a" Demo.enc_c1 "example_policy_v1"
        Demo.ledger1).2).
Proof.
  destruct (@X20_ApplyPolicy_then_UpdateChunkExpiryDate Demo.lib (Demo.tx "tx2" 10)
              Demo.ledger1 "a" Demo.enc_c1 "example_policy_v1"
              (@ApplyPolicy Demo.lib (Demo.tx "tx2" 10) "a" Demo.enc_c1
                 "example_policy_v1" Demo.ledger1).2
              Demo_roundtrip eq_refl)
    as (asset & t & p & _ & _ & _ & _ & _ & Hu).
  exact (Hu (Demo.tx "tx3" 20)).
Defined.

Lemma X21_witness :
  (@getAssetCreationTime Demo.lib "a" Scenario.recreated).1 = Ok (Demo.at_second 0)
  /\ tx_Timestamp (Demo.tx "tx4" 50) = Demo.at_second 50.
Proof.
  split; [|reflexivity].
  destruct (@X21_expiry_counts_from_the_first_transaction Demo.lib
              (Demo.tx "tx4" 50) Demo.ledger3 "a" Demo.enc_c2 Demo.energy_id
              Scenario.recreated
              (match (@getAssetHistory Demo.lib "a" Demo.ledger3).1 with
               | Ok h => h
               | Err _ => []
               end)
              Demo_roundtrip eq_refl eq_refl)
    as (asset1 & _ & _ & _ & _ & Hc & _).
  exact Hc.
Defined.
